(** * PurchaseForecast: the data-preparation, fit and projection pipeline

    A shallow embedding of [src/PurchaseForecast.js].  The component keeps
    its state in React hooks; here the state is a record that is passed
    explicitly.  The TensorFlow model, [Math.sin] and [Math.cos] are host
    code and enter through the interface [Host]; the dates of the
    language enter through [DateHost].

    Rows.  The pipeline is written first on entries whose [sales_date]
    is a string or absent, where it cannot fail but in the host; the
    module [Parsed] then takes the rows as the CSV reader types them,
    where a [sales_date] that is no string makes the callback of
    [preprocessData] throw.

    Numbers.  Quantities are JavaScript numbers; every definition that
    touches them is written once over the interface [JSNumber], which has
    two instances: IEEE binary64 ([float], what a JavaScript engine
    computes) and exact extended rationals ([exact], the same operations
    without rounding and without a negative zero).  Months and years are
    integers or NaN and are carried on [inum]; doubles agree with it on
    the safe integers, those of magnitude below 2^53. *)

From Stdlib Require Import ZArith QArith Lia List Bool Ascii String.
From Stdlib Require Import DecimalString DecimalPos.
From Stdlib Require Import Floats.
From stdpp Require Import gmap strings list.

Local Open Scope string_scope.
Local Open Scope Z_scope.

(** ** Host strings *)

Module JSString.

(** [s.split(c)] for a one-character separator: never empty. *)
Fixpoint split (c : ascii) (s : string) : list string :=
  match s with
  | EmptyString => [ EmptyString ]
  | String a s' =>
      if Ascii.eqb a c then EmptyString :: split c s'
      else match split c s' with
           | h :: t => String a h :: t
           | [] => [ String a EmptyString ]
           end
  end.

(** [StrWhiteSpaceChar], on code units below 256. *)
Definition is_white (a : ascii) : bool :=
  let n := nat_of_ascii a in
  ((9 <=? n) && (n <=? 13))%nat || (n =? 32)%nat || (n =? 160)%nat.

Definition digit_of (a : ascii) : option Z :=
  let n := Z.of_nat (nat_of_ascii a) in
  if (48 <=? n) && (n <=? 57) then Some (n - 48) else None.

Fixpoint trim_start (s : string) : string :=
  match s with
  | String a s' => if is_white a then trim_start s' else s
  | EmptyString => EmptyString
  end.

(** The longest prefix of decimal digits: its value (most significant
    digit first, [acc] holds the digits read so far), the number of
    digits read and the rest of the string. *)
Fixpoint digits (acc : Z) (count : nat) (s : string) : Z * nat * string :=
  match s with
  | String a s' =>
      match digit_of a with
      | Some d => digits (10 * acc + d) (S count) s'
      | None => (acc, count, s)
      end
  | EmptyString => (acc, count, s)
  end.

Fixpoint all_white (s : string) : bool :=
  match s with
  | String a s' => is_white a && all_white s'
  | EmptyString => true
  end.

(** An optional sign: is it negative, and what follows. *)
Definition sign (s : string) : bool * string :=
  match s with
  | String "-" s' => (true, s')
  | String "+" s' => (false, s')
  | _ => (false, s)
  end.

End JSString.

(** ** Integral numbers of the date arithmetic

    [IInt z] stands for the double of value [z]; the operations below are
    those of doubles as long as arguments and results are safe
    integers. *)

Inductive inum : Type :=
| INaN
| IInt (z : Z).

Module INum.

(** [Number.isSafeInteger] *)
Definition safe (z : Z) : Prop := Z.abs z < 2 ^ 53.

Definition lift2 (f : Z -> Z -> Z) (a b : inum) : inum :=
  match a, b with
  | IInt x, IInt y => IInt (f x y)
  | _, _ => INaN
  end.

Definition add := lift2 Z.add.
Definition sub := lift2 Z.sub.
Definition mul := lift2 Z.mul.

(** [a % b]: the remainder takes the sign of the dividend; [x % 0] is
    NaN. *)
Definition rem (a b : inum) : inum :=
  match a, b with
  | IInt x, IInt y => if y =? 0 then INaN else IInt (Z.rem x y)
  | _, _ => INaN
  end.

(** [Math.floor(a / b)] for a positive divisor. *)
Definition floor_div (a : inum) (b : Z) : inum :=
  match a with
  | IInt x => IInt (x / b)
  | INaN => INaN
  end.

(** [ToString] of a number of magnitude below 10^21, from where on the
    language prints an exponent. *)
Definition to_string (a : inum) : string :=
  match a with
  | INaN => "NaN"
  | IInt z => NilZero.string_of_int (Z.to_int z)
  end.

(** [parseInt(s, 10)], as long as the digits read spell a safe
    integer; beyond, the language rounds to a double. *)
Definition parseInt (s : string) : inum :=
  let '(neg, body) := JSString.sign (JSString.trim_start s) in
  let '(v, count, _) := JSString.digits 0 O body in
  match count with
  | O => INaN
  | S _ => IInt (if neg then - v else v)
  end.

(** [Number(s)] on the strings that spell an integer in decimal or
    nothing at all: white space, an optional sign, digits, white
    space.  Strings that spell no number yield NaN.  The other numeric
    spellings of JavaScript - a fraction, an exponent, a radix prefix,
    [Infinity] - denote doubles that [inum] may not hold: they are
    outside this model, which reads them as NaN; [exact_on] tells the
    strings on which the model is sure to agree with the language, as
    long as the integer read is a safe one. *)
Definition Number (s : string) : inum :=
  let t := JSString.trim_start s in
  if JSString.all_white t then IInt 0
  else
    let '(neg, body) := JSString.sign t in
    let '(v, count, rest) := JSString.digits 0 O body in
    match count with
    | O => INaN
    | S _ => if JSString.all_white rest then IInt (if neg then - v else v)
             else INaN
    end.

(** The strings [Number] is exact on: blank ones, integers in decimal,
    and those that cannot start a number (after the sign neither a
    digit, nor a dot, nor the I of [Infinity]). *)
Definition exact_on (s : string) : bool :=
  let t := JSString.trim_start s in
  JSString.all_white t
  || (let '(_, body) := JSString.sign t in
      let '(_, count, rest) := JSString.digits 0 O body in
      match count with
      | O => match body with
             | String "." _ | String "I" _ => false
             | _ => true
             end
      | S _ => JSString.all_white rest
      end).

End INum.

(** ** JavaScript numbers *)

(** The operations of the language on numbers that the component uses. *)
Class JSNumber (num : Type) : Type := {
  NaN : num;
  Infinity : num;
  NegInfinity : num;
  of_Z : Z -> num;
  num_add : num -> num -> num;
  num_sub : num -> num -> num;
  num_mul : num -> num -> num;
  num_div : num -> num -> num;
  (** [Number.isNaN] *)
  num_isNaN : num -> bool;
  (** [a < b] and [a === b] *)
  num_lt : num -> num -> bool;
  num_eq : num -> num -> bool;
  is_neg_zero : num -> bool;
  Math_PI : num
}.

Declare Scope js_scope.
Delimit Scope js_scope with js.
Infix "+" := num_add : js_scope.
Infix "-" := num_sub : js_scope.
Infix "*" := num_mul : js_scope.
Infix "/" := num_div : js_scope.

(** *** IEEE binary64 *)

Module Double.

Definition of_Z (z : Z) : float :=
  SF2Prim (binary_normalize prec emax z 0 false).

Definition is_neg_zero (x : float) : bool :=
  match PrimFloat.classify x with
  | NZero => true
  | _ => false
  end.

(** [Math.PI] *)
Definition PI : float := 0x1.921fb54442d18p+1%float.

(** [Number.isFinite], read off the specification of the format. *)
Definition spec_finite (x : spec_float) : Prop :=
  match x with
  | S754_finite _ _ _ | S754_zero _ => True
  | S754_infinity _ | S754_nan => False
  end.

Definition finite (x : float) : bool :=
  match Prim2SF x with
  | S754_finite _ _ _ | S754_zero _ => true
  | S754_infinity _ | S754_nan => false
  end.

End Double.

#[export] Instance double_number : JSNumber float := {|
  NaN := PrimFloat.nan;
  Infinity := PrimFloat.infinity;
  NegInfinity := PrimFloat.neg_infinity;
  of_Z := Double.of_Z;
  num_add := PrimFloat.add;
  num_sub := PrimFloat.sub;
  num_mul := PrimFloat.mul;
  num_div := PrimFloat.div;
  num_isNaN := PrimFloat.is_nan;
  num_lt := PrimFloat.ltb;
  num_eq := PrimFloat.eqb;
  is_neg_zero := Double.is_neg_zero;
  Math_PI := Double.PI
|}.

(** *** Exact arithmetic

    The same operations on rationals extended with the two infinities and
    NaN: no rounding, no overflow, one zero. *)

Inductive exact : Type :=
| ENaN
| EInf (negative : bool)
| EFin (q : Q).

Module Exact.

Definition is_zero (q : Q) : bool := Qeq_bool q (0 # 1).
Definition is_neg (q : Q) : bool := (Qnum q <? 0)%Z.

Definition add (a b : exact) : exact :=
  match a, b with
  | ENaN, _ | _, ENaN => ENaN
  | EInf s, EInf t => if Bool.eqb s t then EInf s else ENaN
  | EInf s, EFin _ => EInf s
  | EFin _, EInf t => EInf t
  | EFin x, EFin y => EFin (Qred (Qplus x y))
  end.

Definition opp (a : exact) : exact :=
  match a with
  | ENaN => ENaN
  | EInf s => EInf (negb s)
  | EFin x => EFin (Qred (Qopp x))
  end.

Definition sub (a b : exact) : exact := add a (opp b).

Definition mul (a b : exact) : exact :=
  match a, b with
  | ENaN, _ | _, ENaN => ENaN
  | EInf s, EInf t => EInf (xorb s t)
  | EInf s, EFin y => if is_zero y then ENaN else EInf (xorb s (is_neg y))
  | EFin x, EInf t => if is_zero x then ENaN else EInf (xorb (is_neg x) t)
  | EFin x, EFin y => EFin (Qred (Qmult x y))
  end.

Definition div (a b : exact) : exact :=
  match a, b with
  | ENaN, _ | _, ENaN => ENaN
  | EInf _, EInf _ => ENaN
  | EInf s, EFin y => EInf (xorb s (is_neg y))
  | EFin _, EInf _ => EFin (0 # 1)
  | EFin x, EFin y =>
      if is_zero y then (if is_zero x then ENaN else EInf (is_neg x))
      else EFin (Qred (Qdiv x y))
  end.

Definition isNaN (a : exact) : bool :=
  match a with ENaN => true | _ => false end.

Definition lt (a b : exact) : bool :=
  match a, b with
  | ENaN, _ | _, ENaN => false
  | EInf s, EInf t => s && negb t
  | EInf s, EFin _ => s
  | EFin _, EInf t => negb t
  | EFin x, EFin y => negb (Qle_bool y x)
  end.

Definition eq (a b : exact) : bool :=
  match a, b with
  | EInf s, EInf t => Bool.eqb s t
  | EFin x, EFin y => Qeq_bool x y
  | _, _ => false
  end.

(** [Math.PI] is a double, hence a rational. *)
Definition PI : Q := 884279719003555 # 281474976710656.

End Exact.

#[export] Instance exact_number : JSNumber exact := {|
  NaN := ENaN;
  Infinity := EInf false;
  NegInfinity := EInf true;
  of_Z := fun z => EFin (inject_Z z);
  num_add := Exact.add;
  num_sub := Exact.sub;
  num_mul := Exact.mul;
  num_div := Exact.div;
  num_isNaN := Exact.isNaN;
  num_lt := Exact.lt;
  num_eq := Exact.eq;
  is_neg_zero := fun _ => false;
  Math_PI := EFin Exact.PI
|}.

(** ** Objects used as maps *)

Module JSObject.

(** The property names every plain object inherits from
    [Object.prototype]. *)
Definition prototype_keys : list string :=
  [ "constructor"; "hasOwnProperty"; "isPrototypeOf";
    "propertyIsEnumerable"; "toLocaleString"; "toString"; "valueOf";
    "__proto__"; "__defineGetter__"; "__defineSetter__";
    "__lookupGetter__"; "__lookupSetter__" ].

Definition inherited (k : string) : bool :=
  bool_decide (k ∈ prototype_keys).

(** What reading a property of the product map yields: a code stored by
    [preprocessData], an inherited member, or [undefined]. *)
Inductive value : Type :=
| VUndefined
| VCode (c : nat)
| VInherited (k : string).

(** [k in o] looks through the prototype chain. *)
Definition has (o : gmap string nat) (k : string) : bool :=
  bool_decide (is_Some (o !! k)) || inherited k.

(** [o[k]] *)
Definition get (o : gmap string nat) (k : string) : value :=
  match o !! k with
  | Some c => VCode c
  | None => if inherited k then VInherited k else VUndefined
  end.

End JSObject.

(** ** Outcomes *)

(** What a call into the host comes back with: a value, or an exception. *)
Inductive Reply (A : Type) : Type :=
| Answer (a : A)
| Raise (message : string).

Arguments Answer {A} a.
Arguments Raise {A} message.

(** A run either completes or ends in a failure.  The first three kinds
    are the fatal errors the design names; [HostException] is an
    exception escaping from the tensor library; [TypeError] is the
    exception the language raises when what is called is no function.
    The component contains no [throw] of its own. *)
Inductive Failure : Type :=
| EmptyTrainingSet
| UnknownProduct
| InvalidStartDate
| HostException (message : string)
| TypeError (message : string).

Inductive Completion (A : Type) : Type :=
| Returned (a : A)
| Thrown (e : Failure).

Arguments Returned {A} a.
Arguments Thrown {A} e.

Definition bind {A B} (c : Completion A) (k : A -> Completion B) : Completion B :=
  match c with
  | Returned a => k a
  | Thrown e => Thrown e
  end.

(** A call into the host: what it raises escapes as it is. *)
Definition call {A} (h : Reply A) : Completion A :=
  match h with
  | Answer a => Returned a
  | Raise message => Thrown (HostException message)
  end.

Notation "'let*' x ':=' c 'in' k" := (bind c (fun x => k))
  (at level 10, x name, c at level 100, k at level 200).

(** ** Records *)

(** A field read by the CSV reader with dynamic typing: a number, [null]
    for an empty cell, [undefined] for a missing column.  The component
    uses a quantity only through its conversion to a number, so a
    quantity of another type enters as the number it converts to. *)
Inductive cell (num : Type) : Type :=
| Undefined
| Null
| Num (n : num).

Arguments Undefined {num}.
Arguments Null {num}.
Arguments Num {num} n.

(** One row of the parsed file whose [sales_date] is a string or
    absent, [None] then; a row with a [sales_date] of another type is a
    [Parsed.Row], below. *)
Record RawRecord (num : Type) : Type := {
  sales_date : option string;
  product_description : string;
  quantity_sold : cell num
}.

Arguments sales_date {num} _.
Arguments product_description {num} _.
Arguments quantity_sold {num} _.

(** An element of [processedData]. *)
Record Processed (num : Type) : Type := {
  d_month : inum;
  d_product_description : JSObject.value;
  d_quantity_sold : cell num
}.

Arguments d_month {num} _.
Arguments d_product_description {num} _.
Arguments d_quantity_sold {num} _.

(** An element of [normalizedData]. *)
Record Normalized (num : Type) : Type := {
  n_month : inum;
  n_product_description : JSObject.value;
  n_quantity_sold : num
}.

Arguments n_month {num} _.
Arguments n_product_description {num} _.
Arguments n_quantity_sold {num} _.

(** What [preprocessData] returns. *)
Record Preprocessed (num : Type) : Type := {
  normalizedData : list (Normalized num);
  maxQuantity : num;
  minQuantity : num
}.

Arguments normalizedData {num} _.
Arguments maxQuantity {num} _.
Arguments minQuantity {num} _.

(** An element of [futurePredictions]. *)
Record ForecastPoint (num : Type) : Type := {
  p_sales_date : string;
  p_product_description : string;
  p_quantity_sold : num
}.

Arguments p_sales_date {num} _.
Arguments p_product_description {num} _.
Arguments p_quantity_sold {num} _.

(** The hooks of the component ([jsonData] mirrors [data] and is never
    read). *)
Record State (num : Type) : Type := {
  data : list (RawRecord num);
  predictions : list (ForecastPoint num);
  loading : bool;
  productMap : gmap string nat;
  startDate : string;
  selectedProduct : string
}.

Arguments data {num} _.
Arguments predictions {num} _.
Arguments loading {num} _.
Arguments productMap {num} _.
Arguments startDate {num} _.
Arguments selectedProduct {num} _.

Definition monthNames : list string :=
  [ "January"; "February"; "March"; "April"; "May"; "June"; "July";
    "August"; "September"; "October"; "November"; "December" ].

(** ** The host

    What the component calls and does not define: [Math.sin], [Math.cos]
    and the tensor library.  [tf_fit] stands for building the tensors and
    the network and fitting it for 100 epochs, [tf_predict] for
    [model.predict(tf.tensor2d([row])).dataSync()[0]]; either may throw. *)

Class Host (num : Type) : Type := {
  Math_sin : num -> num;
  Math_cos : num -> num;
  Model : Type;
  tf_fit : list (num * num * JSObject.value) -> list num -> Reply Model;
  tf_predict : Model -> num * num * JSObject.value -> Reply num
}.

(** ** The component *)

Section PurchaseForecast.

Context {num : Type} {js : JSNumber num} {host : Host num}.

Local Open Scope js_scope.

Definition of_inum (a : inum) : num :=
  match a with
  | INaN => NaN
  | IInt z => of_Z z
  end.

(** [ToNumber] of a field. *)
Definition ToNumber (v : cell num) : num :=
  match v with
  | Undefined => NaN
  | Null => of_Z 0
  | Num n => n
  end.

(** The global [isNaN] converts its argument first. *)
Definition isNaN (v : cell num) : bool := num_isNaN (ToNumber v).

(** [ToBoolean] of a number, of a string and of an absent-or-string
    field. *)
Definition truthy (x : num) : bool :=
  negb (num_isNaN x) && negb (num_eq x (of_Z 0)).

Definition truthy_string (s : string) : bool :=
  match s with
  | EmptyString => false
  | String _ _ => true
  end.

Definition truthy_field (o : option string) : bool :=
  match o with
  | Some s => truthy_string s
  | None => false
  end.

Definition is_pos_zero (x : num) : bool :=
  num_eq x (of_Z 0) && negb (is_neg_zero x).

(** [Math.max(...l)]: starts from [-Infinity], NaN as soon as one
    argument is NaN, [+0] counts as larger than [-0]. *)
Fixpoint Math_max_from (highest : num) (l : list num) : num :=
  match l with
  | [] => highest
  | x :: l' =>
      if num_isNaN x then NaN
      else if (is_pos_zero x && is_neg_zero highest) || num_lt highest x
           then Math_max_from x l'
           else Math_max_from highest l'
  end.

Definition Math_max (l : list num) : num := Math_max_from NegInfinity l.

(** [Math.min(...l)], from [+Infinity]. *)
Fixpoint Math_min_from (lowest : num) (l : list num) : num :=
  match l with
  | [] => lowest
  | x :: l' =>
      if num_isNaN x then NaN
      else if (is_neg_zero x && is_pos_zero lowest) || num_lt x lowest
           then Math_min_from x l'
           else Math_min_from lowest l'
  end.

Definition Math_min (l : list num) : num := Math_min_from Infinity l.

(** *** preprocessData *)

(** [newProductMap] and [productIndex], the two variables the callback
    of [data.map] updates. *)
Definition Encoder : Type := gmap string nat * nat.

(** [parseInt(dateParts[i], 10)]: a missing part is [undefined], which
    [parseInt] reads as the string "undefined". *)
Definition parseInt_part (part : option string) : inum :=
  INum.parseInt (default "undefined" part).

(** The callback of [data.map] on an entry whose [sales_date] is a
    string or absent ([Parsed.process_row] is the callback on any
    row): [None] is its [null]. *)
Definition process_entry (enc : Encoder) (entry : RawRecord num)
  : Encoder * option (Processed num) :=
  if negb (truthy_field (sales_date entry)) || isNaN (quantity_sold entry)
  then (enc, None)
  else
    let dateParts :=
      JSString.split "/"
        (hd EmptyString
           (JSString.split " " (default EmptyString (sales_date entry)))) in
    let month := parseInt_part (dateParts !! 0%nat) in
    let year := parseInt_part (dateParts !! 2%nat) in
    let '(newProductMap, productIndex) := enc in
    let enc' :=
      if negb (JSObject.has newProductMap (product_description entry))
      then (<[product_description entry := productIndex]> newProductMap,
            S productIndex)
      else enc in
    let productDescriptionEncoded :=
      JSObject.get (fst enc') (product_description entry) in
    (enc',
     Some {| d_month := INum.add (INum.mul year (IInt 12)) month;
             d_product_description := productDescriptionEncoded;
             d_quantity_sold := quantity_sold entry |}).

(** [data.map(callback)], left to right. *)
Fixpoint map_entries (enc : Encoder) (l : list (RawRecord num))
  : Encoder * list (option (Processed num)) :=
  match l with
  | [] => (enc, [])
  | entry :: l' =>
      let '(enc1, r) := process_entry enc entry in
      let '(enc2, rs) := map_entries enc1 l' in
      (enc2, r :: rs)
  end.

(** [.filter(Boolean)] drops the [null]s. *)
Definition filter_Boolean {A} (l : list (option A)) : list A :=
  omap id l.

(** [maxQuantity - minQuantity || 1] *)
Definition range_or_1 (maxQuantity minQuantity : num) : num :=
  let r := maxQuantity - minQuantity in
  if truthy r then r else of_Z 1.

(** [processedData], and [newProductMap] once the pass is over. *)
Definition processedData (l : list (RawRecord num)) : list (Processed num) :=
  filter_Boolean (snd (map_entries (∅, O) l)).

Definition newProductMap (l : list (RawRecord num)) : gmap string nat :=
  fst (fst (map_entries (∅, O) l)).

(** The result together with the map handed to [setProductMap]. *)
Definition preprocessData (l : list (RawRecord num))
  : Preprocessed num * gmap string nat :=
  let processedData := processedData l in
  let quantities := map (fun d => ToNumber (d_quantity_sold d)) processedData in
  let maxQuantity := Math_max quantities in
  let minQuantity := Math_min quantities in
  let range := range_or_1 maxQuantity minQuantity in
  let normalizedData :=
    map (fun d =>
           {| n_month := d_month d;
              n_product_description := d_product_description d;
              n_quantity_sold :=
                (ToNumber (d_quantity_sold d) - minQuantity) / range |})
        processedData in
  ({| normalizedData := normalizedData;
      maxQuantity := maxQuantity;
      minQuantity := minQuantity |},
   newProductMap l).

(** *** trainModel *)

(** [(2 * Math.PI * phase) / 12] *)
Definition angle (phase : inum) : num :=
  (of_Z 2 * Math_PI * of_inum phase) / of_Z 12.

(** The phase of a training row: [d.month % 12]. *)
Definition train_phase (month : inum) : inum := INum.rem month (IInt 12).

Definition train_row (d : Normalized num) : num * num * JSObject.value :=
  (Math_sin (angle (train_phase (n_month d))),
   Math_cos (angle (train_phase (n_month d))),
   n_product_description d).

Definition trainModel (normalized : list (Normalized num)) : Completion Model :=
  let xs := map train_row normalized in
  let ys := map n_quantity_sold normalized in
  call (tf_fit xs ys).

(** *** predictSales *)

Definition nextMonth (month : inum) (i : Z) : inum :=
  INum.add
    (INum.rem (INum.sub (INum.add month (IInt i)) (IInt 1)) (IInt 12))
    (IInt 1).

Definition nextYear (year month : inum) (i : Z) : inum :=
  INum.add year
    (INum.floor_div (INum.sub (INum.add month (IInt i)) (IInt 1)) 12).

(** The phase of a forecast row: [nextMonth - 1]. *)
Definition predict_phase (next_month : inum) : inum :=
  INum.sub next_month (IInt 1).

Definition predict_row (next_month : inum) (productIndex : JSObject.value)
  : num * num * JSObject.value :=
  (Math_sin (angle (predict_phase next_month)),
   Math_cos (angle (predict_phase next_month)),
   productIndex).

(** [normalizedPrediction * (maxQuantity - minQuantity) + minQuantity] *)
Definition denormalize (maxQuantity minQuantity normalizedPrediction : num) : num :=
  normalizedPrediction * (maxQuantity - minQuantity) + minQuantity.

(** [monthNames[i]], then [ToString]. *)
Definition month_name (i : inum) : string :=
  match i with
  | IInt z =>
      if (0 <=? z)%Z then default "undefined" (monthNames !! Z.to_nat z)
      else "undefined"
  | INaN => "undefined"
  end.

(** [`${monthNames[nextMonth - 1]} ${nextYear}`] *)
Definition label (next_month next_year : inum) : string :=
  month_name (INum.sub next_month (IInt 1)) ++ " " ++ INum.to_string next_year.

(** [const [year, month] = startDate.split("-").map(Number)]; a missing
    [month] is [undefined], NaN in the arithmetic that follows. *)
Definition parse_startDate (s : string) : inum * inum :=
  let parts := map INum.Number (JSString.split "-" s) in
  (default INaN (parts !! 0%nat), default INaN (parts !! 1%nat)).

(** One turn of the loop; [futurePredictions] is threaded through. *)
Definition predict_step (st : State num) (model : Model)
    (maxQuantity minQuantity : num) (year month : inum)
    (futurePredictions : list (ForecastPoint num)) (i : Z)
  : Completion (list (ForecastPoint num)) :=
  let next_month := nextMonth month i in
  let next_year := nextYear year month i in
  if truthy_string (selectedProduct st) then
    let productIndex := JSObject.get (productMap st) (selectedProduct st) in
    let* normalizedPrediction :=
      call (tf_predict model (predict_row next_month productIndex)) in
    let quantitySold := denormalize maxQuantity minQuantity normalizedPrediction in
    Returned
      (futurePredictions ++
         [ {| p_sales_date := label next_month next_year;
              p_product_description := selectedProduct st;
              p_quantity_sold := quantitySold |} ])%list
  else Returned futurePredictions.

(** [for (let i = 0; i < 6; i++)] *)
Fixpoint for_loop (body : list (ForecastPoint num) -> Z -> Completion (list (ForecastPoint num)))
    (acc : list (ForecastPoint num)) (turns : list Z)
  : Completion (list (ForecastPoint num)) :=
  match turns with
  | [] => Returned acc
  | i :: turns' => let* acc' := body acc i in for_loop body acc' turns'
  end.

(** The value handed to [setPredictions]. *)
Definition predictSales (st : State num) (model : Model)
    (maxQuantity minQuantity : num)
  : Completion (list (ForecastPoint num)) :=
  let '(year, month) := parse_startDate (startDate st) in
  for_loop (predict_step st model maxQuantity minQuantity year month)
    [] [0; 1; 2; 3; 4; 5]%Z.

(** *** handleTrainModel

    [st] is the state of the render whose closure runs: the setters
    take effect in the state that is returned, while [predictSales]
    still reads [productMap], [startDate] and [selectedProduct] of
    [st].  The result pairs the state left behind with the failure, if
    any, that rejected the promise. *)
Definition handleTrainModel (st : State num) (parsedData : list (RawRecord num))
  : State num * option Failure :=
  let '(pre, new_map) := preprocessData parsedData in
  let st1 :=
    {| data := data st; predictions := predictions st; loading := true;
       productMap := new_map; startDate := startDate st;
       selectedProduct := selectedProduct st |} in
  match trainModel (normalizedData pre) with
  | Thrown e => (st1, Some e)
  | Returned model =>
      match predictSales st model (maxQuantity pre) (minQuantity pre) with
      | Thrown e => (st1, Some e)
      | Returned futurePredictions =>
          ({| data := data st1; predictions := futurePredictions;
              loading := false; productMap := productMap st1;
              startDate := startDate st1;
              selectedProduct := selectedProduct st1 |}, None)
      end
  end.

End PurchaseForecast.

(** ** Rows as the CSV reader types them

    The reader is asked for [dynamicTyping]: a field that spells a
    number or a boolean arrives as a number or a boolean (and, with some
    versions of the reader, a date in ISO spelling as a [Date]), an
    empty field as [null].  So [sales_date] need not be a string.  The
    definitions above are the component on entries whose [sales_date]
    is a string or absent; those of this module are the component on any
    row.  Of a [sales_date] that is no string the component looks at the
    truth value, and then calls [split] on it, which such a value does
    not have. *)

Module Parsed.

Inductive DateField : Type :=
| Text (field : option string)
| NotText (truthy : bool).

Record Row (num : Type) : Type := {
  r_sales_date : DateField;
  r_product_description : string;
  r_quantity_sold : cell num
}.

Arguments r_sales_date {num} _.
Arguments r_product_description {num} _.
Arguments r_quantity_sold {num} _.

Section Rows.

Context {num : Type} {js : JSNumber num} {host : Host num}.

Local Open Scope js_scope.

(** The row as an entry of the kind above; a date that is no string is
    left out. *)
Definition entry (row : Row num) : RawRecord num :=
  {| sales_date :=
       match r_sales_date row with
       | Text field => field
       | NotText _ => None
       end;
     product_description := r_product_description row;
     quantity_sold := r_quantity_sold row |}.

(** The callback of [data.map]: the guard
    [!entry.sales_date || isNaN(entry.quantity_sold)], then
    [entry.sales_date.split], a [TypeError] on what is no string. *)
Definition process_row (enc : Encoder) (row : Row num)
  : Completion (Encoder * option (Processed num)) :=
  match r_sales_date row with
  | Text _ => Returned (process_entry enc (entry row))
  | NotText truthy =>
      if negb truthy || isNaN (r_quantity_sold row) then Returned (enc, None)
      else Thrown (TypeError "entry.sales_date.split is not a function")
  end.

(** [data.map(callback)], left to right; an exception ends it. *)
Fixpoint map_rows (enc : Encoder) (l : list (Row num))
  : Completion (Encoder * list (option (Processed num))) :=
  match l with
  | [] => Returned (enc, [])
  | row :: l' =>
      let* r := process_row enc row in
      let* rs := map_rows (fst r) l' in
      Returned (fst rs, snd r :: snd rs)
  end.

(** The result together with the map handed to [setProductMap], which
    is not reached when the callback throws. *)
Definition preprocessData (l : list (Row num))
  : Completion (Preprocessed num * gmap string nat) :=
  let* mapped := map_rows (∅, O) l in
  let processedData := filter_Boolean (snd mapped) in
  let quantities := map (fun d => ToNumber (d_quantity_sold d)) processedData in
  let maxQuantity := Math_max quantities in
  let minQuantity := Math_min quantities in
  let range := range_or_1 maxQuantity minQuantity in
  let normalizedData :=
    map (fun d =>
           {| n_month := d_month d;
              n_product_description := d_product_description d;
              n_quantity_sold :=
                (ToNumber (d_quantity_sold d) - minQuantity) / range |})
        processedData in
  Returned
    ({| normalizedData := normalizedData;
        maxQuantity := maxQuantity;
        minQuantity := minQuantity |},
     fst (fst mapped)).

(** [handleTrainModel], as above: [st] is the state of the render whose
    closure runs. *)
Definition handleTrainModel (st : State num) (parsedData : list (Row num))
  : State num * option Failure :=
  let st0 :=
    {| data := data st; predictions := predictions st; loading := true;
       productMap := productMap st; startDate := startDate st;
       selectedProduct := selectedProduct st |} in
  match preprocessData parsedData with
  | Thrown e => (st0, Some e)
  | Returned (pre, new_map) =>
      let st1 :=
        {| data := data st; predictions := predictions st; loading := true;
           productMap := new_map; startDate := startDate st;
           selectedProduct := selectedProduct st |} in
      match trainModel (normalizedData pre) with
      | Thrown e => (st1, Some e)
      | Returned model =>
          match predictSales st model (maxQuantity pre) (minQuantity pre) with
          | Thrown e => (st1, Some e)
          | Returned futurePredictions =>
              ({| data := data st1; predictions := futurePredictions;
                  loading := false; productMap := productMap st1;
                  startDate := startDate st1;
                  selectedProduct := selectedProduct st1 |}, None)
          end
      end
  end.

End Rows.

End Parsed.

(** ** Dates

    [new Date(value)] and the getters of a date are host code: how a
    string is read as a date is left to the implementation, and
    [getFullYear] and [getMonth] answer in the local time zone.  A date
    is held as its time value, the milliseconds since the epoch, NaN for
    an invalid date. *)

Class DateHost : Type := {
  (** The time value of [new Date(field)], for a field that is a string
      or absent. *)
  Date_new : option string -> inum;
  (** [YearFromTime(LocalTime(t))] and [MonthFromTime(LocalTime(t))] *)
  YearFromTime : Z -> Z;
  MonthFromTime : Z -> Z
}.

Module JSDate.

(** [a < b] on two dates compares their time values; it is false as
    soon as one of them is invalid. *)
Definition lt (a b : inum) : bool :=
  match a, b with
  | IInt x, IInt y => x <? y
  | _, _ => false
  end.

Definition getFullYear {dates : DateHost} (d : inum) : inum :=
  match d with
  | IInt t => IInt (YearFromTime t)
  | INaN => INaN
  end.

Definition getMonth {dates : DateHost} (d : inum) : inum :=
  match d with
  | IInt t => IInt (MonthFromTime t)
  | INaN => INaN
  end.

End JSDate.

(** [s.padStart(targetLength, fill)] for a filler of one character. *)
Definition padStart (targetLength : nat) (fill : ascii) (s : string) : string :=
  string_of_list_ascii (repeat fill (targetLength - String.length s))
  ++ s.

(** ** The effect and the button *)

Section Handlers.

Context {num : Type} {js : JSNumber num} {host : Host num} {dates : DateHost}.

(** *** The effect on [selectedProduct] and [data] *)

(** [productData.reduce(callback, initial)] *)
Definition reduce_earliest (productData : list (RawRecord num)) (initial : inum)
  : inum :=
  fold_left
    (fun earliest current =>
       let currentDate := Date_new (sales_date current) in
       if JSDate.lt currentDate earliest then currentDate else earliest)
    productData initial.

(** [`${earliestDate.getFullYear()}-${String(earliestDate.getMonth() + 1).padStart(2, "0")}`] *)
Definition formattedDate (earliestDate : inum) : string :=
  INum.to_string (JSDate.getFullYear earliestDate) ++ "-"
  ++ padStart 2 "0"
       (INum.to_string (INum.add (JSDate.getMonth earliestDate) (IInt 1))).

Definition productData_of (st : State num) : list (RawRecord num) :=
  List.filter
    (fun item => String.eqb (product_description item) (selectedProduct st))
    (data st).

(** The body of the effect: the state it leaves. *)
Definition useEffect (st : State num) : State num :=
  if truthy_string (selectedProduct st) && (0 <? length (data st))%nat then
    match productData_of st with
    | first :: _ =>
        let earliestDate :=
          reduce_earliest (productData_of st) (Date_new (sales_date first)) in
        {| data := data st; predictions := predictions st;
           loading := loading st; productMap := productMap st;
           startDate := formattedDate earliestDate;
           selectedProduct := selectedProduct st |}
    | [] => st
    end
  else st.

(** *** What is rendered *)

(** [disabled={loading || !startDate || !selectedProduct}] *)
Definition disabled (st : State num) : bool :=
  loading st || negb (truthy_string (startDate st))
  || negb (truthy_string (selectedProduct st)).

(** [onClick={() => handleTrainModel(data)}] *)
Definition onClick (st : State num) : State num * option Failure :=
  handleTrainModel st (data st).

(** [predictions.length > 0 && <LineChart ... />] *)
Definition chart_rendered (st : State num) : bool :=
  (0 <? length (predictions st))%nat.

End Handlers.

(** ** The design's formulas

    Definitions that follow the words of the design document, to be
    compared with what the component computes. *)

Module Spec.
Section Spec.

Context {num : Type} {js : JSNumber num}.
Local Open Scope js_scope.

(** "range = max(max - min, 1)" *)
Definition range (max min : num) : num :=
  Math_max [ max - min; of_Z 1 ].

(** "normalize(v) = (v - min) / range" *)
Definition normalize (max min v : num) : num :=
  (v - min) / range max min.

(** "denormalize(n) = n * range + min" *)
Definition denormalize (max min n : num) : num :=
  n * range max min + min.

(** "quantity_sold is a finite non-negative number" *)
Definition finite_non_negative (v : cell num) : bool :=
  match v with
  | Num n =>
      negb (num_isNaN n) && negb (num_eq n Infinity) && negb (num_eq n NegInfinity)
      && negb (num_lt n (of_Z 0))
  | Undefined | Null => false
  end.

(** "month_index: integer" *)
Definition is_integer (a : inum) : bool :=
  match a with
  | IInt _ => true
  | INaN => false
  end.

Definition CleanRecord (d : Processed num) : bool :=
  finite_non_negative (d_quantity_sold d) && is_integer (d_month d).

End Spec.
End Spec.

(** ** The vocabulary of the statements *)

Section Vocabulary.

Context {num : Type} {js : JSNumber num} {host : Host num}.

(** The test at the head of the callback, negated: the entry is kept. *)
Definition valid_entry (entry : RawRecord num) : bool :=
  truthy_field (sales_date entry) && negb (isNaN (quantity_sold entry)).

(** [year * 12 + month], both read by [parseInt] from the first and
    the third field of what precedes the first space. *)
Definition date_month_index (s : string) : inum :=
  let dateParts := JSString.split "/" (hd EmptyString (JSString.split " " s)) in
  INum.add (INum.mul (parseInt_part (dateParts !! 2%nat)) (IInt 12))
    (parseInt_part (dateParts !! 0%nat)).

Definition entry_month_index (entry : RawRecord num) : inum :=
  date_month_index (default EmptyString (sales_date entry)).

(** The quantities of the emitted records, as numbers. *)
Definition quantities (l : list (RawRecord num)) : list num :=
  map (fun e => ToNumber (quantity_sold e)) (List.filter valid_entry l).

(** The descriptions that reach the assignment of a code: those of the
    valid entries, except the names a plain object inherits. *)
Definition codable (entry : RawRecord num) : bool :=
  valid_entry entry && negb (JSObject.inherited (product_description entry)).

Definition keys (l : list (RawRecord num)) : list string :=
  map product_description (List.filter codable l).

(** What holds of [newProductMap] and [productIndex] once the
    descriptions [ks] have been met, in that order. *)
Record encoded (enc : Encoder) (ks : list string) : Prop := {
  enc_next : snd enc = size (list_to_set ks : gset string);
  enc_dom : forall k, is_Some (fst enc !! k) <-> k ∈ ks;
  enc_first : forall pre k post,
    ks = (pre ++ k :: post)%list -> k ∉ pre ->
    fst enc !! k = Some (size (list_to_set pre : gset string));
  enc_own : forall k, k ∈ ks -> JSObject.inherited k = false;
  enc_below : forall k c, fst enc !! k = Some c -> (c < snd enc)%nat;
  enc_dense : forall c, (c < snd enc)%nat -> exists k, fst enc !! k = Some c;
  enc_inj : forall k1 k2 c,
    fst enc !! k1 = Some c -> fst enc !! k2 = Some c -> k1 = k2
}.

(** The year and the month [predictSales] reads from the start date, and
    the start dates on which the reading is that of the language. *)
Definition year_of (st : State num) : inum := fst (parse_startDate (startDate st)).
Definition month_of (st : State num) : inum := snd (parse_startDate (startDate st)).

Definition start_in_model (s : string) : bool :=
  forallb INum.exact_on (take 2 (JSString.split "-" s)).

(** The row of turn [i] and the point pushed for the model's answer. *)
Definition forecast_row (st : State num) (month : inum) (i : Z)
  : num * num * JSObject.value :=
  predict_row (nextMonth month i)
    (JSObject.get (productMap st) (selectedProduct st)).

Definition forecast_point (st : State num) (maxQuantity minQuantity : num)
    (year month : inum) (i : Z) (answer : num) : ForecastPoint num :=
  {| p_sales_date := label (nextMonth month i) (nextYear year month i);
     p_product_description := selectedProduct st;
     p_quantity_sold := denormalize maxQuantity minQuantity answer |}.

(** The (year, month) pairs of the six turns of the loop. *)
Definition horizon (year month : inum) : list (inum * inum) :=
  map (fun i => (nextYear year month i, nextMonth month i)) [0; 1; 2; 3; 4; 5].

(** Where the integers of the model are the doubles of the language:
    NaN, or a safe integer; [small] leaves room for the sums of the
    forecast loop. *)
Definition within_safe (a : inum) : bool :=
  match a with
  | IInt z => Z.abs z <? 2 ^ 53
  | INaN => true
  end.

Definition small (a : inum) : bool :=
  match a with
  | IInt z => Z.abs z <? 2 ^ 52
  | INaN => true
  end.

(** The dates whose month count the model computes as the language
    does: what [parseInt] reads as month and as year, the product
    [year * 12] and the sum are safe integers, or NaN. *)
Definition date_in_model (s : string) : bool :=
  let dateParts := JSString.split "/" (hd EmptyString (JSString.split " " s)) in
  let month := parseInt_part (dateParts !! 0%nat) in
  let year := parseInt_part (dateParts !! 2%nat) in
  within_safe month && within_safe year
  && within_safe (INum.mul year (IInt 12))
  && within_safe (INum.add (INum.mul year (IInt 12)) month).

Definition entry_in_model (entry : RawRecord num) : bool :=
  date_in_model (default EmptyString (sales_date entry)).

(** The start dates the model reads as the language does, and whose
    year and month stay safe integers through the six turns. *)
Definition start_exact (s : string) : bool :=
  start_in_model s
  && small (fst (parse_startDate s)) && small (snd (parse_startDate s)).

(** The rows at which the callback throws: a [sales_date] that is no
    string and counts as true, with a quantity that is not NaN. *)
Definition row_throws (row : Parsed.Row num) : bool :=
  match Parsed.r_sales_date row with
  | Parsed.NotText truthy => truthy && negb (isNaN (Parsed.r_quantity_sold row))
  | Parsed.Text _ => false
  end.

End Vocabulary.

(** Does the character occur in the string? *)
Definition occurs (c : ascii) (s : string) : bool :=
  existsb (Ascii.eqb c) (list_ascii_of_string s).


(** A finite number of the exact instance. *)
Definition finite (a : exact) : Prop := exists q : Q, a = EFin q.

(** ** A host for the examples

    Doubles; [Math.sin] and [Math.cos] by their Taylor polynomials (the
    language leaves their accuracy to the implementation); a model that
    has learnt nothing but the mean of its targets.  A row entry that is
    not a number turns into NaN in the tensor and so does the answer; a
    tensor cannot be built from no row at all. *)

Module Example.

Local Open Scope float_scope.

Fixpoint series (n : nat) (k : Z) (term sum x2 : float) : float :=
  match n with
  | O => sum
  | S n' =>
      let term' := term * (- x2) / Double.of_Z ((k + 1) * (k + 2)) in
      series n' (k + 2)%Z term' (sum + term') x2
  end.

Definition sin (x : float) : float := series 24 1 x x (x * x).
Definition cos (x : float) : float := series 24 0 1 1 (x * x).

Definition numeric (row : float * float * JSObject.value) : bool :=
  match row with
  | (s, c, JSObject.VCode _) => negb (is_nan s) && negb (is_nan c)
  | _ => false
  end.

Definition mean (ys : list float) : float :=
  fold_left PrimFloat.add ys 0 / Double.of_Z (Z.of_nat (length ys)).

Definition fit (xs : list (float * float * JSObject.value)) (ys : list float)
  : Reply float :=
  match xs with
  | [] => Raise "tensor2d() requires shape to be provided"
  | _ :: _ => Answer (if forallb numeric xs then mean ys else nan)
  end.

Definition predict (model : float) (row : float * float * JSObject.value)
  : Reply float :=
  Answer (if numeric row then model else nan).

#[global] Instance host : Host float := {|
  Math_sin := sin;
  Math_cos := cos;
  Model := float;
  tf_fit := fit;
  tf_predict := predict
|}.

Definition entry (date description : string) (quantity : float)
  : RawRecord float :=
  {| sales_date := Some date;
     product_description := description;
     quantity_sold := Num quantity |}.

Definition exact_entry (date description : string) (quantity : Q)
  : RawRecord exact :=
  {| sales_date := Some date;
     product_description := description;
     quantity_sold := Num (EFin quantity) |}.

(** The state of a render: a catalogue, a start date and a selection. *)
Definition render (catalogue : gmap string nat) (start selection : string)
  : State float :=
  {| data := []; predictions := []; loading := false;
     productMap := catalogue; startDate := start;
     selectedProduct := selection |}.

Definition widgets : list (RawRecord float) :=
  [ entry "1/1/2023" "Widget" 10;
    entry "2/1/2023" "Widget" 20;
    entry "3/1/2023" "Widget" 15 ].

(** A run of the component on this host. *)
Definition run (st : State float) (parsedData : list (RawRecord float))
  : State float * option Failure :=
  handleTrainModel st parsedData.

Definition forecast (st : State float) (model maxQuantity minQuantity : float)
  : Completion (list (ForecastPoint float)) :=
  predictSales st model maxQuantity minQuantity.


Definition point (date description : string) (quantity : float)
  : ForecastPoint float :=
  {| p_sales_date := date;
     p_product_description := description;
     p_quantity_sold := quantity |}.

(** Rows as the reader delivers them: one dated by a string, and one
    whose date the reader has typed as a number. *)
Definition row (date description : string) (quantity : float)
  : Parsed.Row float :=
  {| Parsed.r_sales_date := Parsed.Text (Some date);
     Parsed.r_product_description := description;
     Parsed.r_quantity_sold := Num quantity |}.

Definition numbered_row (description : string) (quantity : float)
  : Parsed.Row float :=
  {| Parsed.r_sales_date := Parsed.NotText true;
     Parsed.r_product_description := description;
     Parsed.r_quantity_sold := Num quantity |}.

Definition widget_rows : list (Parsed.Row float) :=
  [ row "1/1/2023" "Widget" 10;
    row "2/1/2023" "Widget" 20;
    row "3/1/2023" "Widget" 15 ].

(** Dates on the example host: the spelling month/day/year, read in
    the proleptic Gregorian calendar at midnight, universal time. *)

Definition days_from_civil (y m d : Z) : Z :=
  let y' := if (m <=? 2)%Z then (y - 1)%Z else y in
  let era := (y' / 400)%Z in
  let yoe := (y' - era * 400)%Z in
  let mp := if (m <=? 2)%Z then (m + 9)%Z else (m - 3)%Z in
  let doy := ((153 * mp + 2) / 5 + d - 1)%Z in
  let doe := (yoe * 365 + yoe / 4 - yoe / 100 + doy)%Z in
  (era * 146097 + doe - 719468)%Z.

Definition civil_from_days (z : Z) : Z * Z :=
  let z' := (z + 719468)%Z in
  let era := (z' / 146097)%Z in
  let doe := (z' - era * 146097)%Z in
  let yoe := ((doe - doe / 1460 + doe / 36524 - doe / 146096) / 365)%Z in
  let doy := (doe - (365 * yoe + yoe / 4 - yoe / 100))%Z in
  let mp := ((5 * doy + 2) / 153)%Z in
  let m := if (mp <? 10)%Z then (mp + 3)%Z else (mp - 9)%Z in
  (if (m <=? 2)%Z then (yoe + era * 400 + 1)%Z else (yoe + era * 400)%Z, m).

Definition msPerDay : Z := 86400000.

Definition date_of (field : option string) : inum :=
  match field with
  | Some s =>
      match map INum.Number (JSString.split "/" s) with
      | [ IInt m; IInt d; IInt y ] =>
          if ((1 <=? m) && (m <=? 12) && (1 <=? d) && (d <=? 31))%Z
          then IInt (days_from_civil y m d * msPerDay)
          else INaN
      | _ => INaN
      end
  | None => INaN
  end.

#[global] Instance dates : DateHost := {|
  Date_new := date_of;
  YearFromTime := fun t => fst (civil_from_days (t / msPerDay));
  MonthFromTime := fun t => (snd (civil_from_days (t / msPerDay)) - 1)%Z
|}.

(** The state after the widgets were uploaded and "Widget" was
    chosen. *)
Definition chosen (selection : string) : State float :=
  {| data := widgets; predictions := []; loading := false;
     productMap := newProductMap widgets; startDate := EmptyString;
     selectedProduct := selection |}.

End Example.

(** * Properties *)

(** ** The validator *)

Section Validator.

Context {num : Type} {js : JSNumber num}.

Lemma process_entry_invalid enc entry :
  valid_entry entry = false -> process_entry enc entry = (enc, None).
Proof.
  unfold valid_entry, process_entry. intros Hv.
  destruct (truthy_field (sales_date entry)); simpl in *; [|reflexivity].
  destruct (isNaN (quantity_sold entry)); [reflexivity|discriminate].
Qed.

Lemma process_entry_valid enc entry :
  valid_entry entry = true ->
  exists enc',
    process_entry enc entry =
      (enc', Some {| d_month := entry_month_index entry;
                     d_product_description :=
                       JSObject.get (fst enc') (product_description entry);
                     d_quantity_sold := quantity_sold entry |}).
Proof.
  unfold valid_entry, process_entry. intros Hv.
  apply andb_prop in Hv as [Hd Hq]. rewrite Hd.
  apply negb_true_iff in Hq. rewrite Hq. simpl.
  destruct enc as [m idx]. eexists. reflexivity.
Qed.

Lemma map_entries_cons enc entry l :
  map_entries enc (entry :: l) =
    (fst (map_entries (fst (process_entry enc entry)) l),
     snd (process_entry enc entry)
       :: snd (map_entries (fst (process_entry enc entry)) l)).
Proof.
  simpl. destruct (process_entry enc entry) as [enc1 r]. simpl.
  destruct (map_entries enc1 l). reflexivity.
Qed.

Lemma map_entries_emits enc l :
  map (fun d => (d_month d, d_quantity_sold d))
      (filter_Boolean (snd (map_entries enc l)))
  = map (fun e => (entry_month_index e, quantity_sold e))
      (List.filter valid_entry l).
Proof.
  revert enc. induction l as [|entry l IH]; intros enc; [reflexivity|].
  rewrite map_entries_cons. cbn [snd List.filter].
  destruct (valid_entry entry) eqn:Hv.
  - destruct (process_entry_valid enc entry Hv) as [enc' ->].
    cbn. f_equal. apply IH.
  - rewrite (process_entry_invalid enc entry Hv). cbn. apply IH.
Qed.

Lemma map_entries_not_NaN enc l :
  Forall (fun d => isNaN (d_quantity_sold d) = false)
    (filter_Boolean (snd (map_entries enc l))).
Proof.
  revert enc. induction l as [|entry l IH]; intros enc; [constructor|].
  rewrite map_entries_cons. cbn [snd].
  destruct (valid_entry entry) eqn:Hv.
  - destruct (process_entry_valid enc entry Hv) as [enc' ->].
    cbn. constructor; [|apply IH].
    cbn. unfold valid_entry in Hv. apply andb_prop in Hv as [_ Hq].
    now apply negb_true_iff in Hq.
  - rewrite (process_entry_invalid enc entry Hv). cbn. apply IH.
Qed.

Lemma processedData_quantities l :
  map (fun d => ToNumber (d_quantity_sold d)) (processedData l) = quantities l.
Proof.
  unfold quantities, processedData.
  pose proof (map_entries_emits (∅, O) l) as E.
  apply (f_equal (map (fun p : inum * cell num => ToNumber (snd p)))) in E.
  rewrite !map_map in E. exact E.
Qed.

Lemma process_row_passes enc (row : Parsed.Row num) :
  row_throws row = false ->
  Parsed.process_row enc row = Returned (process_entry enc (Parsed.entry row)).
Proof.
  unfold row_throws, Parsed.process_row.
  destruct (Parsed.r_sales_date row) as [field|truthy] eqn:Ed; [reflexivity|].
  intros Hpass.
  assert (negb truthy || isNaN (Parsed.r_quantity_sold row) = true) as ->.
  { destruct truthy, (isNaN (Parsed.r_quantity_sold row)); cbn in *; congruence. }
  unfold process_entry, Parsed.entry. rewrite Ed. reflexivity.
Qed.

Lemma process_row_throws enc (row : Parsed.Row num) :
  row_throws row = true ->
  exists message, Parsed.process_row enc row = Thrown (TypeError message).
Proof.
  unfold row_throws, Parsed.process_row.
  destruct (Parsed.r_sales_date row) as [field|truthy]; [discriminate|].
  intros Hthrow. apply andb_prop in Hthrow as [-> Hq].
  apply negb_true_iff in Hq. rewrite Hq. cbn. eauto.
Qed.

Lemma map_rows_pass enc (rows : list (Parsed.Row num)) :
  existsb row_throws rows = false ->
  Parsed.map_rows enc rows = Returned (map_entries enc (map Parsed.entry rows)).
Proof.
  revert enc. induction rows as [|row rows IH]; intros enc; [reflexivity|].
  cbn [existsb]. intros Hpass. apply orb_false_elim in Hpass as [Hrow Hrows].
  cbn [Parsed.map_rows map]. rewrite map_entries_cons.
  rewrite (process_row_passes enc row Hrow). cbn [bind].
  rewrite (IH _ Hrows). reflexivity.
Qed.

Lemma map_rows_throw enc (rows : list (Parsed.Row num)) :
  existsb row_throws rows = true ->
  exists message, Parsed.map_rows enc rows = Thrown (TypeError message).
Proof.
  revert enc. induction rows as [|row rows IH]; intros enc; [discriminate|].
  cbn [existsb Parsed.map_rows]. intros Hthrow.
  destruct (row_throws row) eqn:Hrow.
  - destruct (process_row_throws enc row Hrow) as [message ->]. cbn. eauto.
  - rewrite (process_row_passes enc row Hrow). cbn [bind].
    destruct (IH (fst (process_entry enc (Parsed.entry row))) Hthrow)
      as [message ->].
    cbn. eauto.
Qed.

(** C5, as the code has it.  (The dates are such that the month counts
    are safe integers.)  When some row has a [sales_date] that is no
    string, counts as true, and comes with a quantity that is not NaN,
    the validator fails the whole batch with a [TypeError].  Otherwise
    it does not fail; it emits, in the order of the input, one record
    for every row whose [sales_date] is a string that is not empty and
    whose [quantity_sold] is not NaN, and nothing for the others.  The
    month of an emitted record is [year * 12 + month] as [parseInt]
    reads them from the date (NaN when a field does not start with an
    integer), its quantity is the row's own and is not NaN (it may be
    negative, infinite or [null]). *)
Theorem validator_emits (rows : list (Parsed.Row num)) :
  forallb entry_in_model (map Parsed.entry rows) = true ->
  if existsb row_throws rows
  then exists message, Parsed.map_rows (∅, O) rows = Thrown (TypeError message)
  else
    Parsed.map_rows (∅, O) rows
    = Returned (map_entries (∅, O) (map Parsed.entry rows))
    /\ map (fun d => (d_month d, d_quantity_sold d))
         (processedData (map Parsed.entry rows))
       = map (fun e => (entry_month_index e, quantity_sold e))
           (List.filter valid_entry (map Parsed.entry rows))
    /\ Forall (fun d => isNaN (d_quantity_sold d) = false)
         (processedData (map Parsed.entry rows))
    /\ (length (processedData (map Parsed.entry rows)) <= length rows)%nat.
Proof.
  intros _. destruct (existsb row_throws rows) eqn:Hthrow.
  - apply map_rows_throw, Hthrow.
  - split; [apply map_rows_pass, Hthrow|].
    split; [apply map_entries_emits|].
    split; [apply map_entries_not_NaN|].
    pose proof (map_entries_emits (∅, O) (map Parsed.entry rows)) as E.
    apply (f_equal (@length _)) in E. rewrite !length_map in E.
    unfold processedData. rewrite E.
    etransitivity; [apply List.filter_length_le|]. now rewrite length_map.
Qed.

End Validator.

(** ** The scaler *)

Section Scaler.

Context {num : Type} {js : JSNumber num}.
Local Open Scope js_scope.

Lemma range_or_1_cases (mx mn : num) :
  range_or_1 mx mn =
    if num_isNaN (mx - mn) || num_eq (mx - mn) (of_Z 0) then of_Z 1 else mx - mn.
Proof.
  unfold range_or_1, truthy.
  destruct (num_isNaN (mx - mn)), (num_eq (mx - mn) (of_Z 0)); reflexivity.
Qed.

Lemma preprocessData_scale (l : list (RawRecord num)) :
  maxQuantity (fst (preprocessData l)) = Math_max (quantities l)
  /\ minQuantity (fst (preprocessData l)) = Math_min (quantities l)
  /\ map n_quantity_sold (normalizedData (fst (preprocessData l)))
     = map (fun v => (v - Math_min (quantities l))
                     / range_or_1 (Math_max (quantities l))
                                  (Math_min (quantities l)))
         (quantities l).
Proof.
  unfold preprocessData. cbn [fst maxQuantity minQuantity normalizedData].
  rewrite processedData_quantities.
  repeat split.
  rewrite map_map. cbn [n_quantity_sold].
  rewrite <- (processedData_quantities l), map_map. reflexivity.
Qed.

(** C3, as the code has it.  The extrema are those of the emitted
    quantities; the range that normalisation divides by is [max - min]
    unless that is zero or NaN, and 1 then (it is not raised to 1 when
    it lies below 1); every emitted quantity [v] becomes
    [(v - min) / range]; and whenever [max - min] is neither zero nor
    NaN, de-normalisation is [n * range + min] with that same range. *)
Theorem scaling_as_coded (l : list (RawRecord num)) :
  let pre := fst (preprocessData l) in
  let mx := Math_max (quantities l) in
  let mn := Math_min (quantities l) in
  let range :=
    if num_isNaN (mx - mn) || num_eq (mx - mn) (of_Z 0) then of_Z 1 else mx - mn in
  maxQuantity pre = mx
  /\ minQuantity pre = mn
  /\ map n_quantity_sold (normalizedData pre)
     = map (fun v => (v - mn) / range) (quantities l)
  /\ (forall n : num,
        num_isNaN (mx - mn) || num_eq (mx - mn) (of_Z 0) = false ->
        denormalize (maxQuantity pre) (minQuantity pre) n = n * range + mn).
Proof.
  cbv zeta.
  destruct (preprocessData_scale l) as (Hmax & Hmin & Hnorm).
  rewrite Hmax, Hmin, Hnorm, <- range_or_1_cases.
  repeat split.
  intros n Hr. rewrite range_or_1_cases, Hr. reflexivity.
Qed.

End Scaler.

(** ** The extrema in exact arithmetic *)

Section ExactScaler.

Local Open Scope Q_scope.

Lemma Math_max_from_finite (l : list exact) (h : Q) :
  Forall finite l ->
  exists mx : Q,
    Math_max_from (EFin h) l = EFin mx /\ h <= mx
    /\ Forall (fun a => forall q, a = EFin q -> q <= mx) l.
Proof.
  revert h. induction l as [|a l IH]; intros h Hl.
  - exists h. repeat split; [apply Qle_refl|constructor].
  - inversion Hl as [|? ? [x ->] Hl']; subst. cbn.
    rewrite andb_false_r.
    destruct (Qle_bool x h) eqn:Hle; cbn.
    + apply Qle_bool_iff in Hle.
      destruct (IH h Hl') as (mx & E & Hh & Hall).
      exists mx. repeat split; [exact E|exact Hh|].
      constructor; [|exact Hall].
      intros q [= <-]. eapply Qle_trans; eassumption.
    + assert (h < x) as Hlt.
      { apply Qnot_le_lt. intros C. apply Qle_bool_iff in C. congruence. }
      destruct (IH x Hl') as (mx & E & Hx & Hall).
      exists mx. repeat split; [exact E| |].
      * eapply Qle_trans; [apply Qlt_le_weak; exact Hlt|exact Hx].
      * constructor; [|exact Hall]. intros q [= <-]. exact Hx.
Qed.

Lemma Math_min_from_finite (l : list exact) (h : Q) :
  Forall finite l ->
  exists mn : Q,
    Math_min_from (EFin h) l = EFin mn /\ mn <= h
    /\ Forall (fun a => forall q, a = EFin q -> mn <= q) l.
Proof.
  revert h. induction l as [|a l IH]; intros h Hl.
  - exists h. repeat split; [apply Qle_refl|constructor].
  - inversion Hl as [|? ? [x ->] Hl']; subst. cbn.
    destruct (Qle_bool h x) eqn:Hle; cbn.
    + apply Qle_bool_iff in Hle.
      destruct (IH h Hl') as (mn & E & Hh & Hall).
      exists mn. repeat split; [exact E|exact Hh|].
      constructor; [|exact Hall].
      intros q [= <-]. eapply Qle_trans; eassumption.
    + assert (x < h) as Hlt.
      { apply Qnot_le_lt. intros C. apply Qle_bool_iff in C. congruence. }
      destruct (IH x Hl') as (mn & E & Hx & Hall).
      exists mn. repeat split; [exact E| |].
      * eapply Qle_trans; [exact Hx|apply Qlt_le_weak; exact Hlt].
      * constructor; [|exact Hall]. intros q [= <-]. exact Hx.
Qed.

(** The extrema of a non-empty list of finite numbers are finite and
    bound every element. *)
Lemma extrema_finite (a : exact) (l : list exact) :
  Forall finite (a :: l) ->
  exists mx mn : Q,
    Math_max (a :: l) = EFin mx /\ Math_min (a :: l) = EFin mn
    /\ Forall (fun b => forall q, b = EFin q -> mn <= q <= mx) (a :: l).
Proof.
  intros Hl. inversion Hl as [|? ? [x ->] Hl']; subst.
  destruct (Math_max_from_finite l x Hl') as (mx & Emx & Hx & Hmx).
  destruct (Math_min_from_finite l x Hl') as (mn & Emn & Hn & Hmn).
  exists mx, mn. unfold Math_max, Math_min. cbn.
  rewrite andb_false_r. cbn.
  repeat split; [exact Emx|exact Emn|].
  constructor.
  - intros q [= <-]. split; assumption.
  - clear -Hmx Hmn. induction l as [|b l IH]; [constructor|].
    inversion Hmx; inversion Hmn; subst.
    constructor; [|apply IH; assumption].
    intros q ->. split; auto.
Qed.

End ExactScaler.

(** ** The scaler in doubles, when all quantities are equal *)

Section DoubleScaler.

Lemma SFcompare_refl (x : spec_float) :
  Double.spec_finite x -> SFcompare x x = Some Eq.
Proof.
  destruct x as [s| | |s m e]; cbn; try contradiction; intros _; [reflexivity|].
  rewrite Z.compare_refl.
  change (Pos.compare_cont Eq m m) with (Pos.compare m m).
  rewrite Pos.compare_refl. destruct s; reflexivity.
Qed.

Lemma finite_cases q : Double.finite q = true -> Double.spec_finite (Prim2SF q).
Proof.
  unfold Double.finite, Double.spec_finite.
  destruct (Prim2SF q); intros; try discriminate; exact I.
Qed.

Lemma finite_not_nan q : Double.finite q = true -> PrimFloat.is_nan q = false.
Proof.
  intros Hq. unfold PrimFloat.is_nan. rewrite FloatAxioms.eqb_spec. unfold SFeqb.
  rewrite SFcompare_refl by (apply finite_cases, Hq). reflexivity.
Qed.

Lemma finite_above_neg_infinity q :
  Double.finite q = true -> PrimFloat.ltb neg_infinity q = true.
Proof.
  intros Hq. rewrite FloatAxioms.ltb_spec. unfold SFltb.
  change (Prim2SF neg_infinity) with (S754_infinity true).
  apply finite_cases in Hq. destruct (Prim2SF q); try contradiction; reflexivity.
Qed.

Lemma finite_below_infinity q :
  Double.finite q = true -> PrimFloat.ltb q infinity = true.
Proof.
  intros Hq. rewrite FloatAxioms.ltb_spec. unfold SFltb.
  change (Prim2SF infinity) with (S754_infinity false).
  apply finite_cases in Hq. destruct (Prim2SF q); try contradiction; reflexivity.
Qed.

Lemma finite_sub_diag q : Double.finite q = true -> PrimFloat.sub q q = 0%float.
Proof.
  intros Hq. apply Prim2SF_inj. rewrite FloatAxioms.sub_spec.
  change (Prim2SF 0) with (S754_zero false).
  apply finite_cases in Hq. unfold SF64sub, SFsub.
  destruct (Prim2SF q) as [s| | |s m e]; try contradiction.
  - destruct s; reflexivity.
  - cbv zeta. rewrite Z.sub_diag. reflexivity.
Qed.

Lemma finite_add_zero q :
  Double.finite q = true -> PrimFloat.eqb (PrimFloat.add 0 q) q = true.
Proof.
  intros Hq. rewrite FloatAxioms.eqb_spec, FloatAxioms.add_spec.
  change (Prim2SF 0) with (S754_zero false).
  apply finite_cases in Hq. unfold SF64add, SFadd, SFeqb.
  destruct (Prim2SF q) as [s| | |s m e] eqn:E; try contradiction.
  - destruct s; reflexivity.
  - now rewrite SFcompare_refl.
Qed.

Lemma Math_max_from_same (q : float) (n : nat) :
  PrimFloat.is_nan q = false -> Math_max_from q (repeat q n) = q.
Proof.
  intros Hq. induction n as [|n IH]; [reflexivity|].
  cbn [repeat Math_max_from]. cbn [num_isNaN double_number]. rewrite Hq.
  destruct (_ || _); exact IH.
Qed.

Lemma Math_min_from_same (q : float) (n : nat) :
  PrimFloat.is_nan q = false -> Math_min_from q (repeat q n) = q.
Proof.
  intros Hq. induction n as [|n IH]; [reflexivity|].
  cbn [repeat Math_min_from]. cbn [num_isNaN double_number]. rewrite Hq.
  destruct (_ || _); exact IH.
Qed.

Lemma extrema_same (q : float) (n : nat) :
  Double.finite q = true ->
  Math_max (repeat q (S n)) = q /\ Math_min (repeat q (S n)) = q.
Proof.
  intros Hq. pose proof (finite_not_nan q Hq) as Hnan.
  unfold Math_max, Math_min. cbn [repeat Math_max_from Math_min_from].
  cbn [num_isNaN num_lt NegInfinity Infinity double_number]. rewrite Hnan.
  rewrite (finite_above_neg_infinity q Hq), (finite_below_infinity q Hq).
  rewrite !orb_true_r.
  split; [apply Math_max_from_same|apply Math_min_from_same]; exact Hnan.
Qed.

(** X6.  The degenerate range in doubles.  When the emitted quantities are
    all one finite double [q], normalisation divides by 1: every
    normalised quantity is 0, and de-normalising 0 gives [q] back. *)
Theorem degenerate_range_in_doubles (l : list (RawRecord float)) (q : float) (n : nat) :
  Double.finite q = true ->
  quantities l = repeat q (S n) ->
  let pre := fst (preprocessData l) in
  map n_quantity_sold (normalizedData pre) = repeat 0%float (S n)
  /\ num_eq (denormalize (maxQuantity pre) (minQuantity pre) 0%float) q = true.
Proof.
  intros Hq Hl. cbv zeta.
  destruct (preprocessData_scale l) as (-> & -> & ->).
  rewrite Hl. destruct (extrema_same q n Hq) as [-> ->].
  assert (range_or_1 q q = 1%float) as Hr.
  { unfold range_or_1, truthy. cbn [num_sub double_number].
    rewrite (finite_sub_diag q Hq). reflexivity. }
  rewrite Hr. split.
  - clear Hl. generalize (S n). intros k. induction k as [|k IH]; [reflexivity|].
    cbn [repeat map]. rewrite IH. f_equal.
    cbn [num_sub num_div double_number]. rewrite (finite_sub_diag q Hq). reflexivity.
  - unfold denormalize. cbn [num_eq num_add num_mul num_sub double_number].
    rewrite (finite_sub_diag q Hq).
    change (PrimFloat.mul 0 0) with 0%float. apply finite_add_zero, Hq.
Qed.

End DoubleScaler.

(** ** The forecast loop *)

Section Forecast.

Context {num : Type} {js : JSNumber num} {host : Host num}.

Lemma predictSales_unfold st model mx mn :
  predictSales st model mx mn =
    for_loop (predict_step st model mx mn (year_of st) (month_of st))
      [] [0; 1; 2; 3; 4; 5].
Proof.
  unfold predictSales, year_of, month_of.
  destruct (parse_startDate (startDate st)). reflexivity.
Qed.

Lemma predict_step_failure st model mx mn year month acc i e :
  predict_step st model mx mn year month acc i = Thrown e ->
  exists message, e = HostException message.
Proof.
  unfold predict_step.
  destruct (truthy_string (selectedProduct st)); [|discriminate].
  destruct (tf_predict model _) as [a|message]; cbn; [discriminate|].
  intros [= <-]. eauto.
Qed.

Lemma for_loop_failure st model mx mn year month turns acc e :
  for_loop (predict_step st model mx mn year month) acc turns = Thrown e ->
  exists message, e = HostException message.
Proof.
  revert acc. induction turns as [|i turns IH]; intros acc; cbn [for_loop];
    [discriminate|].
  destruct (predict_step st model mx mn year month acc i) as [acc'|e'] eqn:E;
    cbn [bind].
  - apply IH.
  - intros [= <-]. eapply predict_step_failure, E.
Qed.

Lemma for_loop_answers st model mx mn year month (answers : Z -> num) turns acc :
  truthy_string (selectedProduct st) = true ->
  Forall (fun i => tf_predict model (forecast_row st month i) = Answer (answers i))
    turns ->
  for_loop (predict_step st model mx mn year month) acc turns
  = Returned
      (acc ++ map (fun i => forecast_point st mx mn year month i (answers i)) turns)%list.
Proof.
  intros Hsel Hans. revert acc.
  induction Hans as [|i turns Hi _ IH]; intros acc; cbn [for_loop map].
  - now rewrite app_nil_r.
  - assert (predict_step st model mx mn year month acc i
            = Returned (acc ++ [forecast_point st mx mn year month i (answers i)])%list)
      as ->.
    { unfold predict_step. rewrite Hsel.
      unfold forecast_row in Hi. rewrite Hi. reflexivity. }
    cbn [bind]. rewrite IH, <- app_assoc. reflexivity.
Qed.

Lemma for_loop_idle st model mx mn year month turns acc :
  truthy_string (selectedProduct st) = false ->
  for_loop (predict_step st model mx mn year month) acc turns = Returned acc.
Proof.
  intros Hsel. induction turns as [|i turns IH]; cbn [for_loop]; [reflexivity|].
  assert (predict_step st model mx mn year month acc i = Returned acc) as ->.
  { unfold predict_step. now rewrite Hsel. }
  exact IH.
Qed.

(** Whatever the state and the start date, a failure of the forecast
    is an exception of the host. *)
Lemma predictSales_failure st model mx mn e :
  predictSales st model mx mn = Thrown e ->
  exists message, e = HostException message.
Proof. rewrite predictSales_unfold. apply for_loop_failure. Qed.

(** With a product selected and a model that answers the six rows, six
    points are returned, one per turn, in the order of the turns. *)
Lemma predictSales_answers st model mx mn (answers : Z -> num) :
  truthy_string (selectedProduct st) = true ->
  Forall (fun i => tf_predict model (forecast_row st (month_of st) i)
                   = Answer (answers i)) [0; 1; 2; 3; 4; 5] ->
  predictSales st model mx mn
  = Returned
      (map (fun i => forecast_point st mx mn (year_of st) (month_of st) i (answers i))
         [0; 1; 2; 3; 4; 5]).
Proof.
  intros Hsel Hans. rewrite predictSales_unfold.
  now rewrite (for_loop_answers _ _ _ _ _ _ answers _ _ Hsel Hans).
Qed.

(** The labels of the points are those of the horizon, in its order. *)
Lemma forecast_labels st mx mn year month (answers : Z -> num) :
  map p_sales_date
    (map (fun i => forecast_point st mx mn year month i (answers i))
       [0; 1; 2; 3; 4; 5])
  = map (fun p => label (snd p) (fst p)) (horizon year month).
Proof. reflexivity. Qed.

Lemma call_failure {A} (h : Reply A) e :
  call h = Thrown e -> exists message, e = HostException message.
Proof. destruct h; cbn; [discriminate|]. intros [= <-]. eauto. Qed.

(** A run fails only when the host raises. *)
Lemma handleTrainModel_failure st l e :
  snd (handleTrainModel st l) = Some e ->
  exists message, e = HostException message.
Proof.
  unfold handleTrainModel.
  destruct (preprocessData l) as [pre new_map].
  destruct (trainModel (normalizedData pre)) as [model|e1] eqn:Et.
  - destruct (predictSales st model (maxQuantity pre) (minQuantity pre))
      as [points|e2] eqn:Ep; cbn; [discriminate|].
    intros [= <-]. eapply predictSales_failure, Ep.
  - cbn. intros [= <-]. eapply call_failure, Et.
Qed.


Lemma preprocessData_pass (rows : list (Parsed.Row num)) :
  existsb row_throws rows = false ->
  Parsed.preprocessData rows = Returned (preprocessData (map Parsed.entry rows)).
Proof.
  intros Hpass. unfold Parsed.preprocessData.
  rewrite (map_rows_pass _ rows Hpass). reflexivity.
Qed.

Lemma preprocessData_throw (rows : list (Parsed.Row num)) :
  existsb row_throws rows = true ->
  exists message, Parsed.preprocessData rows = Thrown (TypeError message).
Proof.
  intros Hthrow. unfold Parsed.preprocessData.
  destruct (map_rows_throw (∅, O) rows Hthrow) as [message ->]. cbn. eauto.
Qed.

(** On rows at which the callback does not throw, a run is the run on
    the entries. *)
Lemma handleTrainModel_pass (st : State num) (rows : list (Parsed.Row num)) :
  existsb row_throws rows = false ->
  Parsed.handleTrainModel st rows = handleTrainModel st (map Parsed.entry rows).
Proof.
  intros Hpass. unfold Parsed.handleTrainModel, handleTrainModel.
  rewrite (preprocessData_pass rows Hpass).
  destruct (preprocessData (map Parsed.entry rows)) as [pre new_map].
  reflexivity.
Qed.

Lemma handleTrainModel_throw (st : State num) (rows : list (Parsed.Row num)) :
  existsb row_throws rows = true ->
  exists message,
    Parsed.handleTrainModel st rows
    = ({| data := data st; predictions := predictions st; loading := true;
          productMap := productMap st; startDate := startDate st;
          selectedProduct := selectedProduct st |},
       Some (TypeError message)).
Proof.
  intros Hthrow. unfold Parsed.handleTrainModel.
  destruct (preprocessData_throw rows Hthrow) as [message ->]. eauto.
Qed.

(** C2, as the code has it.  (The start date and the dates of the rows
    are such that the model reads them as the language does.)  With a
    product selected, a run can fail only with an exception of the host
    or with the [TypeError] of a [sales_date] that is no string: there
    is no unknown-product failure.  The lookup is made in the catalogue
    of the state the run was started in; when that catalogue does not
    hold the product it yields [undefined] (or the member inherited
    under that name).  And when the product is missing from the
    catalogue the run builds, or from that of the state, and the fit and
    the model answer, the run ends without failure in six points for
    that product, the value of the lookup being the third entry of each
    of the six rows. *)
Theorem unknown_product_is_not_reported
    (st : State num) (rows : list (Parsed.Row num)) :
  truthy_string (selectedProduct st) = true ->
  start_exact (startDate st) = true ->
  forallb entry_in_model (map Parsed.entry rows) = true ->
  (forall e, snd (Parsed.handleTrainModel st rows) = Some e ->
             (exists message, e = HostException message)
             \/ (exists message, e = TypeError message))
  /\ (productMap st !! selectedProduct st = None ->
      JSObject.get (productMap st) (selectedProduct st)
      = (if JSObject.inherited (selectedProduct st)
         then JSObject.VInherited (selectedProduct st)
         else JSObject.VUndefined))
  /\ (forall pre new_map model (answers : Z -> num),
        Parsed.preprocessData rows = Returned (pre, new_map) ->
        new_map !! selectedProduct st = None
        \/ productMap st !! selectedProduct st = None ->
        trainModel (normalizedData pre) = Returned model ->
        Forall
          (fun i =>
             tf_predict model
               (predict_row (nextMonth (month_of st) i)
                  (JSObject.get (productMap st) (selectedProduct st)))
             = Answer (answers i))
          [0; 1; 2; 3; 4; 5] ->
        Parsed.handleTrainModel st rows
        = ({| data := data st;
              predictions :=
                map (fun i =>
                       forecast_point st (maxQuantity pre) (minQuantity pre)
                         (year_of st) (month_of st) i (answers i))
                  [0; 1; 2; 3; 4; 5];
              loading := false;
              productMap := new_map;
              startDate := startDate st;
              selectedProduct := selectedProduct st |}, None)).
Proof.
  intros Hsel _ _. split; [|split].
  - intros e He. destruct (existsb row_throws rows) eqn:Hthrow.
    + destruct (handleTrainModel_throw st rows Hthrow) as [message E].
      rewrite E in He. injection He as <-. right. eauto.
    + rewrite (handleTrainModel_pass st rows Hthrow) in He.
      left. eapply handleTrainModel_failure, He.
  - intros Habsent. unfold JSObject.get. now rewrite Habsent.
  - intros pre new_map model answers Hpre _ Hfit Hans.
    unfold Parsed.handleTrainModel. rewrite Hpre, Hfit.
    now rewrite (predictSales_answers st model _ _ answers Hsel Hans).
Qed.


(** C10.  With the empty selection every turn of the loop hands the
    accumulated points on unchanged, and the forecast is the empty
    list: no point, no failure, whatever the start date, the catalogue
    and the model. *)
Theorem no_selection_no_forecast
    (d : list (RawRecord num)) (ps : list (ForecastPoint num)) (busy : bool)
    (catalogue : gmap string nat) (start : string)
    (model : Model) (mx mn : num) :
  let st := {| data := d; predictions := ps; loading := busy;
               productMap := catalogue; startDate := start;
               selectedProduct := EmptyString |} in
  predictSales st model mx mn = Returned []
  /\ (forall year month acc i,
        predict_step st model mx mn year month acc i = Returned acc).
Proof.
  cbv zeta. split.
  - rewrite predictSales_unfold. now apply for_loop_idle.
  - reflexivity.
Qed.

(** C6, as the code has it.  When no entry is valid, no failure is
    raised for the lack of training data: the pre-processing returns an
    empty list with [-Infinity] as maximum and [Infinity] as minimum,
    the training hands empty inputs to the tensor library, and the run
    fails only if the host raises. *)
Theorem empty_training_set_is_not_reported (l : list (RawRecord num)) :
  List.filter valid_entry l = [] ->
  fst (preprocessData l)
    = {| normalizedData := []; maxQuantity := NegInfinity;
         minQuantity := Infinity |}
  /\ trainModel (normalizedData (fst (preprocessData l))) = call (tf_fit [] [])
  /\ (forall st e, snd (handleTrainModel st l) = Some e ->
                   exists message, e = HostException message).
Proof.
  intros Hnone.
  assert (processedData l = []) as Hp.
  { pose proof (map_entries_emits (∅, O) l) as E.
    rewrite Hnone in E. apply map_eq_nil in E. exact E. }
  assert (fst (preprocessData l)
          = {| normalizedData := []; maxQuantity := NegInfinity;
               minQuantity := Infinity |}) as Hpre.
  { unfold preprocessData. rewrite Hp. reflexivity. }
  split; [exact Hpre|]. split.
  - rewrite Hpre. reflexivity.
  - intros st e. apply handleTrainModel_failure.
Qed.

End Forecast.

(** ** Months: the horizon and the phase *)

Section Calendar.

Lemma next_of_calendar_month (y m i : Z) :
  1 <= m <= 12 -> 0 <= i ->
  nextYear (IInt y) (IInt m) i = IInt (y + (m + i - 1) / 12)
  /\ nextMonth (IInt m) i = IInt ((m + i - 1) mod 12 + 1).
Proof.
  intros Hm Hi. unfold nextYear, nextMonth. cbn.
  rewrite Z.rem_mod_nonneg by lia. split; reflexivity.
Qed.

Lemma train_phase_of_month (y m : Z) :
  0 <= y -> 1 <= m <= 12 ->
  train_phase (INum.add (INum.mul (IInt y) (IInt 12)) (IInt m)) = IInt (m mod 12).
Proof.
  intros Hy Hm. unfold train_phase. cbn. rewrite Z.rem_mod_nonneg by lia.
  f_equal. rewrite Z.add_comm, Z.mod_add by lia. reflexivity.
Qed.

Lemma predict_phase_of_next_month (m : Z) :
  1 <= m <= 12 -> predict_phase (nextMonth (IInt m) 1) = IInt (m mod 12).
Proof.
  intros Hm. unfold predict_phase, nextMonth. cbn.
  rewrite Z.rem_mod_nonneg by lia. f_equal.
  replace (m + 1 - 1) with m by lia. lia.
Qed.

(** C1, on the code: the phase of a training row and of a forecast row
    for one calendar month.  A record dated in month [m] of year [y]
    (a year of our era, its months counted in safe integers) is trained
    on phase [m mod 12]; the forecast for month [m] asks for phase
    [m - 1].  The two differ for every month: the training phase of a
    month is the forecast phase of the month after it. *)
Theorem phase_shift (y m : Z) :
  0 <= y -> INum.safe (y * 12 + 12) -> 1 <= m <= 12 ->
  train_phase (INum.add (INum.mul (IInt y) (IInt 12)) (IInt m)) = IInt (m mod 12)
  /\ predict_phase (IInt m) = IInt (m - 1)
  /\ (m mod 12 =? m - 1) = false
  /\ train_phase (INum.add (INum.mul (IInt y) (IInt 12)) (IInt m))
     = predict_phase (nextMonth (IInt m) 1).
Proof.
  intros Hy _ Hm.
  split; [now apply train_phase_of_month|]. split; [reflexivity|]. split.
  - apply Z.eqb_neq. pose proof (Z.mod_pos_bound m 12).
    destruct (Z.eq_dec m 12) as [->|Hne]; [discriminate|].
    rewrite Z.mod_small by lia. lia.
  - rewrite train_phase_of_month, predict_phase_of_next_month by assumption.
    reflexivity.
Qed.

End Calendar.

Section Horizon.

Context {num : Type} {js : JSNumber num} {host : Host num}.

(** C7.  The six turns of the loop.  From a start date that reads as
    calendar month [m] of year [y] (a safe integer, as the year after
    it), with a product selected and a model that answers, the loop
    runs its six turns in order: turn [i] asks the model for the row of
    month [((m + i - 1) mod 12) + 1] and pushes the point labelled with
    that month and the year [y + floor((m + i - 1) / 12)].  The month
    counts of the six turns are the six consecutive integers from that
    of the start, so the months follow one another without gap or
    repetition, and every month is in 1..12. *)
Theorem horizon_months (st : State num) (model : Model) (mx mn : num)
    (y m : Z) (answers : Z -> num) :
  INum.safe y -> INum.safe (y + 1) ->
  1 <= m <= 12 ->
  parse_startDate (startDate st) = (IInt y, IInt m) ->
  truthy_string (selectedProduct st) = true ->
  Forall
    (fun i =>
       tf_predict model
         (predict_row (IInt ((m + i - 1) mod 12 + 1))
            (JSObject.get (productMap st) (selectedProduct st)))
       = Answer (answers i))
    [0; 1; 2; 3; 4; 5] ->
  predictSales st model mx mn
  = Returned
      (map (fun i =>
              {| p_sales_date :=
                   label (IInt ((m + i - 1) mod 12 + 1))
                     (IInt (y + (m + i - 1) / 12));
                 p_product_description := selectedProduct st;
                 p_quantity_sold := denormalize mx mn (answers i) |})
         [0; 1; 2; 3; 4; 5])
  /\ Forall
       (fun i =>
          (y + (m + i - 1) / 12) * 12 + ((m + i - 1) mod 12 + 1)
          = y * 12 + m + i
          /\ 1 <= (m + i - 1) mod 12 + 1 <= 12)
       [0; 1; 2; 3; 4; 5].
Proof.
  intros _ _ Hm Hparse Hsel Hans.
  assert (forall i, In i [0; 1; 2; 3; 4; 5] -> 0 <= i) as Hturn
    by (cbn; intros i Hi; lia).
  assert (year_of st = IInt y) as EY by (unfold year_of; now rewrite Hparse).
  assert (month_of st = IInt m) as EM by (unfold month_of; now rewrite Hparse).
  split.
  - rewrite (predictSales_answers st model mx mn answers Hsel).
    + f_equal. apply List.map_ext_in. intros i Hi.
      unfold forecast_point. rewrite EY, EM.
      destruct (next_of_calendar_month y m i Hm (Hturn i Hi)) as [-> ->].
      reflexivity.
    + apply List.Forall_forall. intros i Hi.
      unfold forecast_row. rewrite EM.
      destruct (next_of_calendar_month y m i Hm (Hturn i Hi)) as [_ ->].
      revert i Hi. apply List.Forall_forall. exact Hans.
  - apply List.Forall_forall. intros i Hi. apply Hturn in Hi.
    pose proof (Z.mod_pos_bound (m + i - 1) 12 ltac:(lia)).
    pose proof (Z.div_mod (m + i - 1) 12 ltac:(lia)). lia.
Qed.

End Horizon.

Section Rows.

Context {num : Type} {js : JSNumber num} {host : Host num}.

(** The row a record of month [m] is trained on is the row the forecast
    builds for the month after [m], whatever the host's sine and
    cosine. *)
Lemma training_row_is_next_forecast_row (y m : Z) (d : Normalized num) :
  0 <= y -> INum.safe (y * 12 + 12) -> 1 <= m <= 12 ->
  n_month d = INum.add (INum.mul (IInt y) (IInt 12)) (IInt m) ->
  train_row d = predict_row (nextMonth (IInt m) 1) (n_product_description d).
Proof.
  intros Hy _ Hm Hd. unfold train_row, predict_row. rewrite Hd.
  rewrite train_phase_of_month, predict_phase_of_next_month by assumption.
  reflexivity.
Qed.

End Rows.

(** ** The encoder *)

Section Encoder.

Context {num : Type} {js : JSNumber num}.

Lemma encoded_start : encoded (∅, O) [].
Proof.
  split; cbn.
  - reflexivity.
  - intros k. rewrite lookup_empty. split; [intros [? [=]]|intros Hk].
    inversion Hk.
  - intros [|? ?] k post [=].
  - intros k Hk. inversion Hk.
  - intros k c. rewrite lookup_empty. discriminate.
  - intros c Hc. lia.
  - intros k1 k2 c. rewrite lookup_empty. discriminate.
Qed.

Lemma process_entry_encoder m idx entry :
  valid_entry entry = true ->
  fst (process_entry (m, idx) entry)
  = if JSObject.has m (product_description entry) then (m, idx)
    else (<[product_description entry := idx]> m, S idx).
Proof.
  unfold valid_entry, process_entry. intros Hv.
  apply andb_prop in Hv as [Hd Hq]. rewrite Hd.
  apply negb_true_iff in Hq. rewrite Hq. cbn.
  destruct (JSObject.has m (product_description entry)); reflexivity.
Qed.

Lemma has_own m k :
  JSObject.inherited k = false ->
  JSObject.has m k = bool_decide (is_Some (m !! k)).
Proof. unfold JSObject.has. intros ->. apply orb_false_r. Qed.

Lemma size_snoc_old (ks : list string) k :
  k ∈ ks ->
  size (list_to_set (ks ++ [k]) : gset string) = size (list_to_set ks : gset string).
Proof.
  intros Hk. f_equal. apply set_eq. intros x.
  rewrite !elem_of_list_to_set, elem_of_app, list_elem_of_singleton.
  split; [intros [?| ->]; assumption|auto].
Qed.

Lemma size_snoc_new (ks : list string) k :
  k ∉ ks ->
  size (list_to_set (ks ++ [k]) : gset string)
  = S (size (list_to_set ks : gset string)).
Proof.
  intros Hk. rewrite list_to_set_app_L, size_union.
  - cbn. rewrite union_empty_r_L, size_singleton. lia.
  - cbn. rewrite union_empty_r_L. intros x Hx Hx'.
    apply elem_of_singleton in Hx'. subst x.
    apply elem_of_list_to_set in Hx. contradiction.
Qed.

(** A split of [ks ++ [k]] at a first occurrence lies inside [ks], or
    is the split at the end when [k] is new. *)
Lemma snoc_split (ks pre post : list string) k k' :
  (ks ++ [k] = pre ++ k' :: post)%list ->
  (exists post', ks = (pre ++ k' :: post')%list)
  \/ (pre = ks /\ k' = k /\ post = []).
Proof.
  intros E. destruct post as [|p post _] using rev_ind.
  - right. apply app_inj_tail in E as [-> ->]. auto.
  - left. exists post.
    change (pre ++ k' :: post ++ [p])%list
      with (pre ++ (k' :: post) ++ [p])%list in E.
    rewrite app_assoc in E. apply app_inj_tail in E as [-> _]. reflexivity.
Qed.

(** One valid entry keeps the encoder in step with the descriptions
    met. *)
Lemma process_entry_encoded enc ks entry :
  encoded enc ks ->
  valid_entry entry = true ->
  encoded (fst (process_entry enc entry))
    (if JSObject.inherited (product_description entry) then ks
     else ks ++ [product_description entry])%list.
Proof.
  intros Henc Hv. destruct enc as [m idx].
  rewrite (process_entry_encoder m idx entry Hv).
  set (k := product_description entry).
  destruct (JSObject.inherited k) eqn:Hin.
  { unfold JSObject.has. rewrite Hin, orb_true_r. exact Henc. }
  rewrite (has_own m k Hin).
  destruct Henc as [Hnext Hdom Hfirst Hown Hbelow Hdense Hinj]. cbn in *.
  destruct (bool_decide (is_Some (m !! k))) eqn:Hhas.
  - apply bool_decide_eq_true in Hhas. apply Hdom in Hhas.
    split; cbn.
    + now rewrite size_snoc_old.
    + intros x. rewrite Hdom, elem_of_app, list_elem_of_singleton.
      split; [auto|intros [?| ->]; assumption].
    + intros pre k' post E Hfresh.
      destruct (snoc_split _ _ _ _ _ E) as [[post' ->]|(-> & -> & _)].
      * eapply Hfirst; eauto.
      * contradiction.
    + intros x. rewrite elem_of_app, list_elem_of_singleton.
      intros [?| ->]; auto.
    + exact Hbelow.
    + exact Hdense.
    + exact Hinj.
  - apply bool_decide_eq_false in Hhas.
    assert (k ∉ ks) as Hnew by (rewrite <- Hdom; exact Hhas).
    assert (m !! k = None) as Hnone.
    { destruct (m !! k) eqn:E; [|reflexivity]. exfalso. apply Hhas. eauto. }
    split; cbn.
    + rewrite size_snoc_new by assumption. now rewrite Hnext.
    + intros x. rewrite elem_of_app, list_elem_of_singleton, <- Hdom.
      destruct (decide (x = k)) as [->|Hne].
      * rewrite lookup_insert_eq. split; eauto.
      * rewrite lookup_insert_ne by congruence. split; [auto|].
        intros [?|?]; [assumption|contradiction].
    + intros pre k' post E Hfresh.
      destruct (snoc_split _ _ _ _ _ E) as [[post' ->]|(-> & -> & _)].
      * assert (k' ≠ k) as Hne.
        { intros ->. apply Hnew. rewrite elem_of_app. right. left. }
        rewrite lookup_insert_ne by congruence. eapply Hfirst; eauto.
      * rewrite lookup_insert_eq. now rewrite Hnext.
    + intros x. rewrite elem_of_app, list_elem_of_singleton.
      intros [?| ->]; auto.
    + intros x c. destruct (decide (x = k)) as [->|Hne].
      * rewrite lookup_insert_eq. intros [= <-]. lia.
      * rewrite lookup_insert_ne by congruence. intros Hx.
        apply Hbelow in Hx. lia.
    + intros c Hc. destruct (decide (c = idx)) as [->|Hne].
      * exists k. apply lookup_insert_eq.
      * destruct (Hdense c) as [x Hx]; [lia|]. exists x.
        rewrite lookup_insert_ne; [exact Hx|]. intros <-. congruence.
    + intros k1 k2 c.
      destruct (decide (k1 = k)) as [->|H1], (decide (k2 = k)) as [->|H2];
        rewrite ?lookup_insert_eq, ?lookup_insert_ne by congruence.
      * reflexivity.
      * intros [= <-] Hx. apply Hbelow in Hx. lia.
      * intros Hx [= <-]. apply Hbelow in Hx. lia.
      * apply Hinj.
Qed.

Lemma keys_cons entry l :
  keys (entry :: l)
  = if codable entry then product_description entry :: keys l else keys l.
Proof. unfold keys. cbn. destruct (codable entry); reflexivity. Qed.

Lemma map_entries_encoded enc ks l :
  encoded enc ks -> encoded (fst (map_entries enc l)) (ks ++ keys l)%list.
Proof.
  revert enc ks. induction l as [|entry l IH]; intros enc ks Henc.
  - cbn. now rewrite app_nil_r.
  - rewrite map_entries_cons, keys_cons. cbn [fst]. unfold codable.
    destruct (valid_entry entry) eqn:Hv; cbn [andb].
    + pose proof (process_entry_encoded enc ks entry Henc Hv) as Hstep.
      destruct (JSObject.inherited (product_description entry)); cbn [negb].
      * apply IH, Hstep.
      * change (ks ++ product_description entry :: keys l)%list
          with (ks ++ [product_description entry] ++ keys l)%list.
        rewrite app_assoc. apply IH, Hstep.
    + rewrite (process_entry_invalid enc entry Hv). cbn [fst]. apply IH, Henc.
Qed.

(** A code, once given, stays. *)
Lemma process_entry_keeps enc entry k c :
  fst enc !! k = Some c -> fst (fst (process_entry enc entry)) !! k = Some c.
Proof.
  intros Hk. destruct (valid_entry entry) eqn:Hv.
  - destruct enc as [m idx]. rewrite (process_entry_encoder m idx entry Hv).
    destruct (JSObject.has m (product_description entry)) eqn:Hhas; [exact Hk|].
    cbn in *. rewrite lookup_insert_ne; [exact Hk|]. intros <-.
    unfold JSObject.has in Hhas. apply orb_false_elim in Hhas as [Hown _].
    apply bool_decide_eq_false in Hown. apply Hown. eauto.
  - now rewrite (process_entry_invalid enc entry Hv).
Qed.

Lemma map_entries_keeps enc l k c :
  fst enc !! k = Some c -> fst (fst (map_entries enc l)) !! k = Some c.
Proof.
  revert enc. induction l as [|entry l IH]; intros enc Hk; [exact Hk|].
  rewrite map_entries_cons. cbn [fst]. apply IH, process_entry_keeps, Hk.
Qed.

(** What [newProductMap[k]] yields for a description already met does
    not change during the rest of the pass. *)
Lemma get_stable enc ks l k :
  encoded enc ks ->
  JSObject.has (fst enc) k = true ->
  JSObject.get (fst (fst (map_entries enc l))) k = JSObject.get (fst enc) k.
Proof.
  intros Henc Hhas. unfold JSObject.get.
  destruct (fst enc !! k) as [c|] eqn:Hk.
  - now rewrite (map_entries_keeps enc l k c Hk).
  - unfold JSObject.has in Hhas. rewrite Hk in Hhas.
    rewrite bool_decide_eq_false_2 in Hhas by (intros [? [=]]).
    cbn in Hhas. rewrite Hhas.
    destruct (fst (fst (map_entries enc l)) !! k) as [c|] eqn:Hk';
      [|reflexivity].
    pose proof (map_entries_encoded enc ks l Henc) as Hfinal.
    assert (k ∈ (ks ++ keys l)%list) as Hin.
    { apply (enc_dom _ _ Hfinal). eauto. }
    apply (enc_own _ _ Hfinal) in Hin. congruence.
Qed.

Lemma process_entry_has enc entry :
  valid_entry entry = true ->
  JSObject.has (fst (fst (process_entry enc entry))) (product_description entry)
  = true.
Proof.
  intros Hv. destruct enc as [m idx].
  rewrite (process_entry_encoder m idx entry Hv).
  destruct (JSObject.has m (product_description entry)) eqn:Hhas;
    [exact Hhas|].
  cbn. unfold JSObject.has. rewrite lookup_insert_eq.
  rewrite bool_decide_eq_true_2 by eauto. reflexivity.
Qed.

Lemma map_entries_values enc ks l :
  encoded enc ks ->
  map d_product_description (filter_Boolean (snd (map_entries enc l)))
  = map (fun e => JSObject.get (fst (fst (map_entries enc l)))
                    (product_description e))
      (List.filter valid_entry l).
Proof.
  revert enc ks. induction l as [|entry l IH]; intros enc ks Henc;
    [reflexivity|].
  rewrite map_entries_cons. cbn [fst snd List.filter].
  destruct (valid_entry entry) eqn:Hv.
  - pose proof (process_entry_encoded enc ks entry Henc Hv) as Hstep.
    pose proof (process_entry_has enc entry Hv) as Hhas.
    destruct (process_entry_valid enc entry Hv) as [enc' E].
    rewrite E in *. cbn [fst snd] in *. cbn.
    f_equal.
    + symmetry. eapply get_stable; eassumption.
    + eapply IH, Hstep.
  - rewrite (process_entry_invalid enc entry Hv). cbn. eapply IH, Henc.
Qed.

(** X1.  The catalogue of a pass.  Its keys are the descriptions of the
    valid entries that are not inherited names; the code of a key is
    the number of distinct keys met before its first appearance (so
    the first is 0 and each new key takes the next integer); the codes
    are exactly the integers below the size of the catalogue, no two
    keys share one; and every emitted record carries what the final
    catalogue yields for its description. *)
Theorem encoding_first_seen (l : list (RawRecord num)) :
  (forall k, is_Some (newProductMap l !! k) <-> k ∈ keys l)
  /\ (forall pre k post,
        keys l = (pre ++ k :: post)%list -> k ∉ pre ->
        newProductMap l !! k = Some (size (list_to_set pre : gset string)))
  /\ (forall c, (c < size (list_to_set (keys l) : gset string))%nat <->
                exists k, newProductMap l !! k = Some c)
  /\ (forall k1 k2 c,
        newProductMap l !! k1 = Some c -> newProductMap l !! k2 = Some c ->
        k1 = k2)
  /\ map d_product_description (processedData l)
     = map (fun e => JSObject.get (newProductMap l) (product_description e))
         (List.filter valid_entry l).
Proof.
  pose proof (map_entries_encoded (∅, O) [] l encoded_start) as Hfinal.
  cbn [app] in Hfinal. unfold newProductMap, processedData.
  destruct Hfinal as [Hnext Hdom Hfirst Hown Hbelow Hdense Hinj].
  cbn [fst snd] in *.
  split; [exact Hdom|]. split; [exact Hfirst|]. split; [|split].
  - intros c. rewrite <- Hnext. split; [apply Hdense|].
    intros [k Hk]. eapply Hbelow, Hk.
  - exact Hinj.
  - eapply map_entries_values, encoded_start.
Qed.

End Encoder.

(** ** Numbers in decimal *)

Section Decimals.

Lemma digits_step a k acc count s :
  JSString.digit_of a = Some k ->
  JSString.digits acc count (String a s)
  = JSString.digits (10 * acc + k) (S count) s.
Proof. intros H. cbn [JSString.digits]. now rewrite H. Qed.

Lemma digits_stop acc count s :
  match s with
  | String a _ => JSString.digit_of a = None
  | EmptyString => True
  end ->
  JSString.digits acc count s = (acc, count, s).
Proof. destruct s as [|a s]; [reflexivity|]. cbn. now intros ->. Qed.

Ltac digit_step :=
  match goal with
  | |- context [String ?a ?s ++ ?r] =>
      change (String a s ++ r) with (String a (s ++ r));
      erewrite (digits_step a) by (vm_compute; reflexivity)
  end.

Lemma digits_of_uint_acc (d : Decimal.uint) (acc : positive) (count : nat) rest :
  JSString.digits (Z.pos acc) count (NilEmpty.string_of_uint d ++ rest)
  = JSString.digits (Z.pos (Pos.of_uint_acc d acc))
      (count + String.length (NilEmpty.string_of_uint d)) rest.
Proof.
  revert acc count.
  induction d as [|d IH|d IH|d IH|d IH|d IH|d IH|d IH|d IH|d IH|d IH];
    intros acc count;
    [cbn; now rewrite Nat.add_0_r|..];
    cbn [NilEmpty.string_of_uint String.length Pos.of_uint_acc];
    digit_step; rewrite Nat.add_succ_r, <- Nat.add_succ_l, <- IH; f_equal; lia.
Qed.

Lemma digits_of_uint (d : Decimal.uint) (count : nat) rest :
  JSString.digits 0 count (NilEmpty.string_of_uint d ++ rest)
  = JSString.digits (Z.of_uint d)
      (count + String.length (NilEmpty.string_of_uint d)) rest.
Proof.
  revert count. unfold Z.of_uint.
  induction d as [|d IH|d IH|d IH|d IH|d IH|d IH|d IH|d IH|d IH|d IH];
    intros count;
    [cbn; now rewrite Nat.add_0_r|..];
    cbn [NilEmpty.string_of_uint String.length Pos.of_uint];
    digit_step; rewrite Nat.add_succ_r, <- Nat.add_succ_l;
    [rewrite <- IH; reflexivity|..];
    cbn [Z.of_N]; rewrite <- digits_of_uint_acc; reflexivity.
Qed.

(** The decimal spelling of an integer: a minus sign if it is negative,
    then the digits of its magnitude. *)
Lemma to_string_spelling (z : Z) :
  exists d,
    d <> Decimal.Nil /\ Z.of_uint d = Z.abs z
    /\ INum.to_string (IInt z)
       = (if z <? 0 then "-" else "") ++ NilEmpty.string_of_uint d.
Proof.
  destruct z as [|p|p]; cbn [INum.to_string Z.to_int NilZero.string_of_int].
  - exists (Decimal.D0 Decimal.Nil). repeat split. discriminate.
  - exists (Pos.to_uint p). split; [apply DecimalPos.Unsigned.to_uint_nonnil|]. split.
    + unfold Z.of_uint. now rewrite DecimalPos.Unsigned.of_to.
    + pose proof (DecimalPos.Unsigned.to_uint_nonnil p).
      unfold NilZero.string_of_uint.
      destruct (Pos.to_uint p); [congruence|reflexivity..].
  - exists (Pos.to_uint p). split; [apply DecimalPos.Unsigned.to_uint_nonnil|]. split.
    + unfold Z.of_uint. now rewrite DecimalPos.Unsigned.of_to.
    + pose proof (DecimalPos.Unsigned.to_uint_nonnil p).
      unfold NilZero.string_of_uint.
      destruct (Pos.to_uint p); [congruence|reflexivity..].
Qed.

(** A spelling starts with a digit: no white space, no sign. *)
Lemma uint_head (d : Decimal.uint) :
  d <> Decimal.Nil ->
  exists a s,
    NilEmpty.string_of_uint d = String a s
    /\ JSString.is_white a = false
    /\ (forall r, JSString.sign (String a r) = (false, String a r))
    /\ (exists k, JSString.digit_of a = Some k).
Proof.
  destruct d; [congruence|..]; intros _; do 2 eexists;
    (split; [reflexivity|]); (split; [reflexivity|]);
    (split; [reflexivity|]); eexists; vm_compute; reflexivity.
Qed.

(** What is read after the sign of a spelling that is followed by
    [rest], when [rest] does not go on with a digit. *)
Lemma digits_of_spelling (d : Decimal.uint) rest :
  d <> Decimal.Nil ->
  match rest with
  | String a _ => JSString.digit_of a = None
  | EmptyString => True
  end ->
  exists n,
    JSString.digits 0 O (NilEmpty.string_of_uint d ++ rest)
    = (Z.of_uint d, S n, rest).
Proof.
  intros Hd Hrest. rewrite digits_of_uint, (digits_stop _ _ _ Hrest).
  destruct (uint_head d Hd) as (a & s & -> & _). cbn. eauto.
Qed.

Lemma trim_start_head a s :
  JSString.is_white a = false ->
  JSString.trim_start (String a s) = String a s.
Proof. intros H. cbn. now rewrite H. Qed.

Lemma append_empty (s : string) : s ++ "" = s.
Proof.
  induction s as [|a s IH]; [reflexivity|].
  change (String a s ++ "") with (String a (s ++ "")). now rewrite IH.
Qed.

Lemma Number_spelling (z : Z) :
  INum.Number (INum.to_string (IInt z)) = IInt z
  /\ INum.exact_on (INum.to_string (IInt z)) = true.
Proof.
  destruct (to_string_spelling z) as (d & Hd & Hv & ->).
  destruct (digits_of_spelling d "" Hd I) as [n Hn].
  rewrite append_empty in Hn.
  destruct (uint_head d Hd) as (a & s & Hs & Hw & Hsign & _).
  unfold INum.Number, INum.exact_on. destruct (z <? 0) eqn:Hz.
  - change ("-" ++ NilEmpty.string_of_uint d)
      with (String "-" (NilEmpty.string_of_uint d)).
    rewrite trim_start_head by reflexivity.
    cbn [JSString.sign JSString.all_white].
    change (JSString.is_white "-") with false. cbn [andb orb].
    rewrite Hn. cbn. split; [f_equal; lia|reflexivity].
  - replace ("" ++ NilEmpty.string_of_uint d) with (NilEmpty.string_of_uint d)
      by reflexivity.
    assert (JSString.trim_start (NilEmpty.string_of_uint d)
            = NilEmpty.string_of_uint d) as ->.
    { rewrite Hs. apply trim_start_head, Hw. }
    assert (JSString.all_white (NilEmpty.string_of_uint d) = false) as ->.
    { rewrite Hs. cbn [JSString.all_white]. now rewrite Hw. }
    assert (JSString.sign (NilEmpty.string_of_uint d)
            = (false, NilEmpty.string_of_uint d)) as ->.
    { rewrite Hs. apply Hsign. }
    rewrite Hn. cbn. split; [f_equal; lia|reflexivity].
Qed.

End Decimals.

(** ** Splitting *)

Section Splitting.

Lemma occurs_cons c a s :
  occurs c (String a s) = Ascii.eqb c a || occurs c s.
Proof. reflexivity. Qed.

(** A string without the separator is the one part of its split. *)
Lemma split_free c s : occurs c s = false -> JSString.split c s = [ s ].
Proof.
  induction s as [|a s IH]; [reflexivity|].
  rewrite occurs_cons. intros H. apply orb_false_elim in H as [Ha Hs].
  cbn [JSString.split]. rewrite Ascii.eqb_sym, Ha, (IH Hs). reflexivity.
Qed.

(** The first separator ends the first part. *)
Lemma split_at c a b :
  occurs c a = false ->
  JSString.split c (a ++ String c b) = a :: JSString.split c b.
Proof.
  induction a as [|x a IH].
  - intros _. change ("" ++ String c b) with (String c b).
    cbn [JSString.split]. now rewrite Ascii.eqb_refl.
  - rewrite occurs_cons. intros H. apply orb_false_elim in H as [Hx Ha].
    change (String x a ++ String c b) with (String x (a ++ String c b)).
    cbn [JSString.split]. rewrite Ascii.eqb_sym, Hx, (IH Ha). reflexivity.
Qed.

Lemma occurs_uint c (d : Decimal.uint) :
  JSString.digit_of c = None -> occurs c (NilEmpty.string_of_uint d) = false.
Proof.
  intros Hc.
  induction d as [|d IH|d IH|d IH|d IH|d IH|d IH|d IH|d IH|d IH|d IH];
    [reflexivity|..];
    cbn [NilEmpty.string_of_uint]; rewrite occurs_cons, IH, orb_false_r;
    (match goal with
     | |- Ascii.eqb c ?k = false =>
         destruct (Ascii.eqb_spec c k) as [->|]; [discriminate Hc|reflexivity]
     end).
Qed.

Lemma split_nonempty c s : JSString.split c s <> [].
Proof.
  destruct s as [|a s]; cbn; [discriminate|].
  destruct (Ascii.eqb a c); [discriminate|].
  destruct (JSString.split c s); discriminate.
Qed.

Lemma split_hd_cons c x s :
  Ascii.eqb c x = false ->
  hd "" (JSString.split c (String x s)) = String x (hd "" (JSString.split c s)).
Proof.
  intros H. cbn [JSString.split]. rewrite Ascii.eqb_sym, H.
  pose proof (split_nonempty c s).
  destruct (JSString.split c s); [congruence|reflexivity].
Qed.

(** What precedes the first separator: a part without separator goes
    into it whole. *)
Lemma split_hd_app c a rest :
  occurs c a = false ->
  hd "" (JSString.split c (a ++ rest)) = a ++ hd "" (JSString.split c rest).
Proof.
  induction a as [|x a IH]; [reflexivity|].
  rewrite occurs_cons. intros H. apply orb_false_elim in H as [Hx Ha].
  change (String x a ++ rest) with (String x (a ++ rest)).
  rewrite (split_hd_cons c x _ Hx), (IH Ha). reflexivity.
Qed.

Lemma split_hd_tail c tail :
  tail = "" \/ (exists t, tail = String c t) ->
  hd "" (JSString.split c tail) = "".
Proof.
  intros [->|[t ->]]; [reflexivity|].
  cbn [JSString.split]. now rewrite Ascii.eqb_refl.
Qed.

End Splitting.

(** ** Dates of the file *)

Section Dates.

Context {num : Type} {js : JSNumber num}.

(** A date in three parts separated by slashes, with or without a time
    after a space: the first and the third part are what [parseInt] is
    given. *)
Lemma date_month_index_parts (M day Y tail : string) :
  occurs " " M = false -> occurs " " day = false -> occurs " " Y = false ->
  occurs "/" M = false -> occurs "/" day = false -> occurs "/" Y = false ->
  tail = "" \/ (exists t, tail = String " " t) ->
  date_month_index (M ++ "/" ++ day ++ "/" ++ Y ++ tail)
  = INum.add (INum.mul (INum.parseInt Y) (IInt 12)) (INum.parseInt M).
Proof.
  intros HM Hday HY HM' Hday' HY' Htail. unfold date_month_index.
  assert (hd "" (JSString.split " " (M ++ "/" ++ day ++ "/" ++ Y ++ tail))
          = M ++ "/" ++ day ++ "/" ++ Y) as ->.
  { rewrite split_hd_app by exact HM.
    change ("/" ++ day ++ "/" ++ Y ++ tail)
      with (String "/" (day ++ "/" ++ Y ++ tail)).
    rewrite split_hd_cons by reflexivity.
    rewrite split_hd_app by exact Hday.
    change ("/" ++ Y ++ tail) with (String "/" (Y ++ tail)).
    rewrite split_hd_cons by reflexivity.
    rewrite split_hd_app by exact HY.
    rewrite (split_hd_tail " " tail Htail), append_empty. reflexivity. }
  change ("/" ++ day ++ "/" ++ Y) with (String "/" (day ++ String "/" Y)).
  rewrite split_at by exact HM'.
  rewrite split_at by exact Hday'.
  rewrite split_free by exact HY'.
  reflexivity.
Qed.

End Dates.

(** ** What the training is given *)

Section TrainingSet.

Context {num : Type} {js : JSNumber num} {host : Host num}.
Local Open Scope js_scope.

Lemma map_entries_records enc ks l :
  encoded enc ks ->
  filter_Boolean (snd (map_entries enc l))
  = map (fun e => {| d_month := entry_month_index e;
                     d_product_description :=
                       JSObject.get (fst (fst (map_entries enc l)))
                         (product_description e);
                     d_quantity_sold := quantity_sold e |})
      (List.filter valid_entry l).
Proof.
  revert enc ks. induction l as [|entry l IH]; intros enc ks Henc;
    [reflexivity|].
  rewrite map_entries_cons. cbn [fst snd List.filter].
  destruct (valid_entry entry) eqn:Hv.
  - pose proof (process_entry_encoded enc ks entry Henc Hv) as Hstep.
    pose proof (process_entry_has enc entry Hv) as Hhas.
    destruct (process_entry_valid enc entry Hv) as [enc' E].
    rewrite E in *. cbn [fst snd] in *. cbn.
    f_equal.
    + f_equal. symmetry. eapply get_stable; eassumption.
    + eapply IH, Hstep.
  - rewrite (process_entry_invalid enc entry Hv). cbn. eapply IH, Henc.
Qed.

(** The normalised records, entry by entry. *)
Lemma normalizedData_of_entries (l : list (RawRecord num)) :
  normalizedData (fst (preprocessData l))
  = map (fun e =>
           {| n_month := entry_month_index e;
              n_product_description :=
                JSObject.get (newProductMap l) (product_description e);
              n_quantity_sold :=
                (ToNumber (quantity_sold e) - Math_min (quantities l))
                / range_or_1 (Math_max (quantities l)) (Math_min (quantities l)) |})
      (List.filter valid_entry l).
Proof.
  unfold preprocessData. cbn [fst normalizedData].
  rewrite processedData_quantities.
  unfold processedData, newProductMap.
  rewrite (map_entries_records (∅, O) [] l encoded_start).
  rewrite map_map. reflexivity.
Qed.

(** X2.  From the file to the tensors.  (The dates of the valid
    entries are such that the month counts are safe integers.)  The fit
    is given one row and one target for every valid entry, in the order
    of the file: the row
    holds the sine and the cosine of the phase [month % 12] of the
    entry's month count and what the finished catalogue yields for its
    description; the target is the entry's quantity, scaled with the
    extrema of all valid quantities.  The outcome of [trainModel] is the
    outcome of that call. *)
Theorem training_set_of_entries (l : list (RawRecord num)) :
  forallb entry_in_model (List.filter valid_entry l) = true ->
  let kept := List.filter valid_entry l in
  let mx := Math_max (quantities l) in
  let mn := Math_min (quantities l) in
  trainModel (normalizedData (fst (preprocessData l)))
  = call
      (tf_fit
         (map (fun e =>
                 (Math_sin (angle (train_phase (entry_month_index e))),
                  Math_cos (angle (train_phase (entry_month_index e))),
                  JSObject.get (newProductMap l) (product_description e)))
            kept)
         (map (fun e => (ToNumber (quantity_sold e) - mn) / range_or_1 mx mn)
            kept)).
Proof.
  intros _. cbv zeta. unfold trainModel.
  rewrite normalizedData_of_entries, !map_map. reflexivity.
Qed.

End TrainingSet.

(** ** The extrema *)

Section Extrema.

Context {num : Type} {js : JSNumber num}.

Lemma Math_max_from_attained (h : num) (l : list num) :
  Forall (fun x => num_isNaN x = false) l -> In (Math_max_from h l) (h :: l).
Proof.
  intros Hl. revert h. induction Hl as [|x l Hx _ IH]; intros h; [now left|].
  cbn [Math_max_from]. rewrite Hx.
  destruct (_ || _).
  - right. apply IH.
  - destruct (IH h) as [E|Hin]; [left; exact E|right; right; exact Hin].
Qed.

Lemma Math_min_from_attained (h : num) (l : list num) :
  Forall (fun x => num_isNaN x = false) l -> In (Math_min_from h l) (h :: l).
Proof.
  intros Hl. revert h. induction Hl as [|x l Hx _ IH]; intros h; [now left|].
  cbn [Math_min_from]. rewrite Hx.
  destruct (_ || _).
  - right. apply IH.
  - destruct (IH h) as [E|Hin]; [left; exact E|right; right; exact Hin].
Qed.

Lemma quantities_not_NaN (l : list (RawRecord num)) :
  Forall (fun x => num_isNaN x = false) (quantities l).
Proof.
  unfold quantities. induction l as [|e l IH]; [constructor|].
  cbn [List.filter]. destruct (valid_entry e) eqn:Hv; [|exact IH].
  cbn [map]. constructor; [|exact IH].
  unfold valid_entry in Hv. apply andb_prop in Hv as [_ Hq].
  now apply negb_true_iff in Hq.
Qed.

(** X3.  The extrema are values of the file.  Whatever the file, the
    maximum handed on is the quantity of one of the valid entries, or
    [-Infinity] (as it is when there is none); the minimum is one of
    these quantities, or [Infinity]; and none of these quantities is
    NaN. *)
Theorem extrema_are_quantities (l : list (RawRecord num)) :
  In (maxQuantity (fst (preprocessData l))) (NegInfinity :: quantities l)
  /\ In (minQuantity (fst (preprocessData l))) (Infinity :: quantities l)
  /\ Forall (fun x => num_isNaN x = false) (quantities l).
Proof.
  destruct (preprocessData_scale l) as (-> & -> & _).
  split; [|split].
  - apply Math_max_from_attained, quantities_not_NaN.
  - apply Math_min_from_attained, quantities_not_NaN.
  - apply quantities_not_NaN.
Qed.

End Extrema.

Section ExactBounds.

Local Open Scope Q_scope.

(** X4.  In exact arithmetic, over a file with a valid entry and finite
    quantities: both extrema are finite, each is the quantity of some
    valid entry, and every quantity lies between them. *)
Theorem extrema_bound_quantities (l : list (RawRecord exact)) :
  quantities l <> [] ->
  Forall finite (quantities l) ->
  exists mx mn : Q,
    maxQuantity (fst (preprocessData l)) = EFin mx
    /\ minQuantity (fst (preprocessData l)) = EFin mn
    /\ In (EFin mx) (quantities l)
    /\ In (EFin mn) (quantities l)
    /\ Forall (fun b => forall q, b = EFin q -> mn <= q <= mx) (quantities l).
Proof.
  intros Hne Hfin.
  pose proof (Math_max_from_attained NegInfinity _ (quantities_not_NaN l))
    as Hmax.
  pose proof (Math_min_from_attained Infinity _ (quantities_not_NaN l))
    as Hmin.
  fold (Math_max (quantities l)) in Hmax.
  fold (Math_min (quantities l)) in Hmin.
  destruct (preprocessData_scale l) as (-> & -> & _).
  destruct (quantities l) as [|a qs] eqn:E; [congruence|].
  destruct (extrema_finite a qs Hfin) as (mx & mn & Emx & Emn & Hb).
  exists mx, mn. rewrite Emx, Emn in *.
  split; [reflexivity|]. split; [reflexivity|].
  split; [|split; [|exact Hb]].
  - destruct Hmax as [C|Hin]; [discriminate C|exact Hin].
  - destruct Hmin as [C|Hin]; [discriminate C|exact Hin].
Qed.

End ExactBounds.

(** ** The round trip in doubles *)

Section DoubleRoundTrip.






End DoubleRoundTrip.

(** ** Entries, one by one and appended *)

Section Entries.

Context {num : Type} {js : JSNumber num}.

(** X7.  The month count of a dated entry.  For an entry whose date
    has three parts separated by slashes, with or without a time after
    a space, and whose quantity is not NaN, the callback emits a record
    whose month is [y * 12 + m], where [m] and [y] are what [parseInt]
    reads from the first and from the third part (all within the safe
    integers); the second part, the day, is not looked at, nor is the
    time. *)
Theorem month_of_a_dated_entry (enc : Encoder) (entry : RawRecord num)
    (M day Y tail : string) (m y : Z) :
  INum.safe m -> INum.safe (y * 12) -> INum.safe (y * 12 + m) ->
  occurs " " M = false -> occurs " " day = false -> occurs " " Y = false ->
  occurs "/" M = false -> occurs "/" day = false -> occurs "/" Y = false ->
  tail = "" \/ (exists t, tail = String " " t) ->
  INum.parseInt M = IInt m -> INum.parseInt Y = IInt y ->
  sales_date entry = Some (M ++ "/" ++ day ++ "/" ++ Y ++ tail) ->
  isNaN (quantity_sold entry) = false ->
  exists enc',
    process_entry enc entry
    = (enc', Some {| d_month := IInt (y * 12 + m);
                     d_product_description :=
                       JSObject.get (fst enc') (product_description entry);
                     d_quantity_sold := quantity_sold entry |}).
Proof.
  intros _ _ _ HM Hday HY HM' Hday' HY' Htail Hm Hy Hdate Hq.
  assert (valid_entry entry = true) as Hv.
  { unfold valid_entry. rewrite Hdate, Hq. destruct M; reflexivity. }
  destruct (process_entry_valid enc entry Hv) as [enc' E].
  exists enc'. rewrite E. do 3 f_equal.
  unfold entry_month_index. rewrite Hdate.
  change (date_month_index (M ++ "/" ++ day ++ "/" ++ Y ++ tail)
          = IInt (y * 12 + m)).
  rewrite date_month_index_parts by assumption.
  rewrite Hm, Hy. reflexivity.
Qed.

Lemma map_entries_app enc (l1 l2 : list (RawRecord num)) :
  map_entries enc (l1 ++ l2)%list
  = (fst (map_entries (fst (map_entries enc l1)) l2),
     (snd (map_entries enc l1)
      ++ snd (map_entries (fst (map_entries enc l1)) l2))%list).
Proof.
  revert enc. induction l1 as [|entry l1 IH]; intros enc.
  - cbn. now destruct (map_entries enc l2).
  - change ((entry :: l1) ++ l2)%list with (entry :: (l1 ++ l2))%list.
    rewrite !map_entries_cons, IH. reflexivity.
Qed.

(** X8.  Rows appended to a file leave what the earlier rows were
    given: every code of the catalogue of [l1] is the code of the same
    description in the catalogue of [l1 ++ l2], and the records emitted
    for [l1 ++ l2] start with the records emitted for [l1], codes
    included. *)
Theorem appended_rows_keep_codes (l1 l2 : list (RawRecord num)) (k : string) (c : nat) :
  newProductMap l1 !! k = Some c ->
  newProductMap (l1 ++ l2)%list !! k = Some c
  /\ take (length (processedData l1)) (processedData (l1 ++ l2)%list)
     = processedData l1.
Proof.
  intros Hk. unfold newProductMap, processedData in *.
  rewrite map_entries_app. cbn [fst snd]. split.
  - apply map_entries_keeps, Hk.
  - unfold filter_Boolean. rewrite omap_app, take_app_length. reflexivity.
Qed.

End Entries.

(** ** Runs *)

Section Runs.

Context {num : Type} {js : JSNumber num} {host : Host num}.

Lemma for_loop_selected st model mx mn year month turns acc r :
  truthy_string (selectedProduct st) = true ->
  for_loop (predict_step st model mx mn year month) acc turns = Returned r ->
  exists new,
    r = (acc ++ new)%list
    /\ Forall (fun p => p_product_description p = selectedProduct st) new
    /\ map p_sales_date new
       = map (fun i => label (nextMonth month i) (nextYear year month i)) turns.
Proof.
  intros Hsel. revert acc.
  induction turns as [|i turns IH]; intros acc; cbn [for_loop].
  - intros [= <-]. exists []. rewrite app_nil_r. repeat split. constructor.
  - unfold predict_step at 1. rewrite Hsel.
    destruct (tf_predict model _) as [a|message]; cbn [call bind];
      [|discriminate].
    intros Hrest. destruct (IH _ Hrest) as (new & -> & Hall & Hlab).
    eexists (_ :: new). rewrite <- app_assoc. split; [reflexivity|].
    split; [constructor; [reflexivity|exact Hall]|].
    cbn [map p_sales_date]. now rewrite Hlab.
Qed.

(** X9.  A run that fails.  The state it leaves has [loading] still
    set, so the button stays disabled, and the predictions are those of
    before.  Either the failure is the [TypeError] of a row whose
    [sales_date] is no string, and the catalogue is that of before; or
    no row is of that kind, the failure is an exception of the tensor
    library, and the catalogue is already that of the new data. *)
Theorem failed_run_stays_loading (st : State num)
    (rows : list (Parsed.Row num)) (e : Failure) :
  snd (Parsed.handleTrainModel st rows) = Some e ->
  loading (fst (Parsed.handleTrainModel st rows)) = true
  /\ disabled (fst (Parsed.handleTrainModel st rows)) = true
  /\ predictions (fst (Parsed.handleTrainModel st rows)) = predictions st
  /\ ((exists message, e = TypeError message)
      /\ existsb row_throws rows = true
      /\ productMap (fst (Parsed.handleTrainModel st rows)) = productMap st
      \/ (exists message, e = HostException message)
         /\ existsb row_throws rows = false
         /\ productMap (fst (Parsed.handleTrainModel st rows))
            = newProductMap (map Parsed.entry rows)).
Proof.
  destruct (existsb row_throws rows) eqn:Hthrow.
  - destruct (handleTrainModel_throw st rows Hthrow) as [message ->].
    cbn. intros [= <-]. repeat split. left. repeat split. eauto.
  - rewrite (handleTrainModel_pass st rows Hthrow). intros He.
    pose proof (handleTrainModel_failure st _ e He) as Hhost.
    revert He. unfold handleTrainModel, disabled, preprocessData.
    destruct (trainModel _) as [model|e1].
    + destruct (predictSales st model _ _) as [points|e2]; cbn;
        [discriminate|].
      intros _. repeat split. right. repeat split. exact Hhost.
    + cbn. intros _. repeat split. right. repeat split. exact Hhost.
Qed.

(** X10.  A run that completes.  (The start date is one the model
    reads as the language does.)  [loading] is cleared, the catalogue is
    that of the data, the data, the start date and the selection are
    untouched; the predictions are six points when a product is
    selected and none otherwise, each for the selected product, labelled
    after the six months of the horizon in their order; the chart is
    rendered exactly when a product is selected. *)
Theorem completed_run_state (st : State num) (l : list (RawRecord num)) :
  start_exact (startDate st) = true ->
  snd (handleTrainModel st l) = None ->
  let st' := fst (handleTrainModel st l) in
  loading st' = false
  /\ productMap st' = newProductMap l
  /\ (data st' = data st /\ startDate st' = startDate st
      /\ selectedProduct st' = selectedProduct st)
  /\ length (predictions st')
     = (if truthy_string (selectedProduct st) then 6 else 0)%nat
  /\ Forall (fun p => p_product_description p = selectedProduct st)
       (predictions st')
  /\ map p_sales_date (predictions st')
     = (if truthy_string (selectedProduct st)
        then map (fun p => label (snd p) (fst p))
               (horizon (year_of st) (month_of st))
        else [])
  /\ chart_rendered st' = truthy_string (selectedProduct st).
Proof.
  intros _. cbv zeta. unfold handleTrainModel, chart_rendered, preprocessData.
  destruct (trainModel _) as [model|e1]; [|discriminate].
  destruct (predictSales st model _ _) as [points|e2] eqn:Ep; [|discriminate].
  cbn. intros _. rewrite predictSales_unfold in Ep.
  split; [reflexivity|]. split; [reflexivity|]. split; [repeat split|].
  destruct (truthy_string (selectedProduct st)) eqn:Hsel.
  - destruct (for_loop_selected _ _ _ _ _ _ _ _ _ Hsel Ep)
      as (new & -> & Hall & Hlab).
    cbn [app]. apply (f_equal (@length _)) in Hlab as Hlen.
    rewrite !length_map in Hlen. rewrite Hlen.
    repeat split; [exact Hall|exact Hlab].
  - rewrite (for_loop_idle _ _ _ _ _ _ _ _ Hsel) in Ep.
    injection Ep as <-. repeat split. constructor.
Qed.

(** X11.  A run on a host that answers.  (The start date and the
    dates of the valid entries are such that the model reads them as
    the language does.)  With a product selected, a fit
    that returns a model for the rows and targets of the valid entries,
    and a model that answers the six rows of the horizon, the run ends
    without failure in the state spelled here: six points in the order
    of the months, each the model's answer put back on the scale of the
    new data, while the product feature of the six rows was read from
    the catalogue of the render that started the run, not from the
    catalogue the run itself has built. *)
Theorem run_on_answering_host (st : State num) (l : list (RawRecord num))
    (model : Model) (answers : Z -> num) :
  start_exact (startDate st) = true ->
  forallb entry_in_model (List.filter valid_entry l) = true ->
  truthy_string (selectedProduct st) = true ->
  tf_fit
    (map (fun e =>
            (Math_sin (angle (train_phase (entry_month_index e))),
             Math_cos (angle (train_phase (entry_month_index e))),
             JSObject.get (newProductMap l) (product_description e)))
       (List.filter valid_entry l))
    (map (fun e =>
            num_div
              (num_sub (ToNumber (quantity_sold e)) (Math_min (quantities l)))
              (range_or_1 (Math_max (quantities l)) (Math_min (quantities l))))
       (List.filter valid_entry l))
  = Answer model ->
  Forall
    (fun i =>
       tf_predict model
         (predict_row (nextMonth (month_of st) i)
            (JSObject.get (productMap st) (selectedProduct st)))
       = Answer (answers i))
    [0; 1; 2; 3; 4; 5] ->
  handleTrainModel st l
  = ({| data := data st;
        predictions :=
          map (fun i =>
                 {| p_sales_date :=
                      label (nextMonth (month_of st) i)
                        (nextYear (year_of st) (month_of st) i);
                    p_product_description := selectedProduct st;
                    p_quantity_sold :=
                      denormalize (Math_max (quantities l))
                        (Math_min (quantities l)) (answers i) |})
            [0; 1; 2; 3; 4; 5];
        loading := false;
        productMap := newProductMap l;
        startDate := startDate st;
        selectedProduct := selectedProduct st |}, None).
Proof.
  intros _ _ Hsel Hfit Hans.
  assert (trainModel (normalizedData (fst (preprocessData l))) = Returned model)
    as Ht.
  { unfold trainModel. rewrite normalizedData_of_entries, !map_map.
    exact (f_equal call Hfit). }
  destruct (preprocessData_scale l) as (Hmax & Hmin & _).
  unfold handleTrainModel.
  destruct (preprocessData l) as [pre new_map] eqn:Epre.
  assert (new_map = newProductMap l) as ->.
  { unfold preprocessData in Epre. now injection Epre as _ <-. }
  cbn [fst] in Ht, Hmax, Hmin. rewrite Ht.
  rewrite (predictSales_answers st model _ _ answers Hsel Hans).
  rewrite Hmax, Hmin. reflexivity.
Qed.

End Runs.

(** ** Start months outside the calendar *)

Section StartMonths.

Lemma month_name_in_calendar (k : Z) :
  0 <= k < 12 ->
  month_name (IInt k) = nth (Z.to_nat k) monthNames ""
  /\ In (month_name (IInt k)) monthNames.
Proof.
  intros Hk. unfold month_name.
  destruct (Z.leb_spec 0 k) as [_|]; [|lia].
  assert (Z.to_nat k < 12)%nat as Hn by lia.
  generalize dependent (Z.to_nat k). clear. intros n Hn.
  do 12 (destruct n as [|n];
         [split; [reflexivity|cbn; tauto]|apply Nat.succ_lt_mono in Hn]).
  lia.
Qed.

Lemma label_of_turn (y m i : Z) :
  1 <= m -> 0 <= i ->
  label (nextMonth (IInt m) i) (nextYear (IInt y) (IInt m) i)
  = nth (Z.to_nat ((m + i - 1) mod 12)) monthNames "" ++ " "
    ++ INum.to_string (IInt (y + (m + i - 1) / 12)).
Proof.
  intros Hm Hi.
  pose proof (Z.mod_pos_bound (m + i - 1) 12 ltac:(lia)) as Hb.
  destruct (month_name_in_calendar ((m + i - 1) mod 12) Hb) as [En _].
  unfold label, nextMonth, nextYear.
  cbn [INum.sub INum.add INum.rem INum.lift2 INum.floor_div Z.eqb].
  rewrite Z.rem_mod_nonneg by lia.
  replace ((m + i - 1) mod 12 + 1 - 1) with ((m + i - 1) mod 12) by lia.
  now rewrite En.
Qed.

(** X12.  A start month beyond December rolls over.  From any start
    month [m >= 1] - 13 and more included - turn [i] is at month
    [((m + i - 1) mod 12) + 1], a month of the calendar, and at year
    [y + floor((m + i - 1) / 12)]: the month that lies [m + i] months
    after December of year [y - 1]; its label is the name of that month
    and the year in decimal. *)
Theorem late_start_month_rolls_over (y m i : Z) :
  INum.safe y -> INum.safe (m + i) -> INum.safe (y * 12 + m + i) ->
  1 <= m -> 0 <= i ->
  let M := (m + i - 1) mod 12 + 1 in
  let Y := y + (m + i - 1) / 12 in
  nextMonth (IInt m) i = IInt M
  /\ nextYear (IInt y) (IInt m) i = IInt Y
  /\ 1 <= M <= 12
  /\ Y * 12 + M = y * 12 + m + i
  /\ label (nextMonth (IInt m) i) (nextYear (IInt y) (IInt m) i)
     = nth (Z.to_nat (M - 1)) monthNames "" ++ " " ++ INum.to_string (IInt Y)
  /\ In (nth (Z.to_nat (M - 1)) monthNames "") monthNames.
Proof.
  intros _ _ _ Hm Hi. cbv zeta.
  pose proof (Z.mod_pos_bound (m + i - 1) 12 ltac:(lia)) as Hb.
  pose proof (Z.div_mod (m + i - 1) 12 ltac:(lia)) as Hd.
  assert (nextMonth (IInt m) i = IInt ((m + i - 1) mod 12 + 1)) as EM.
  { unfold nextMonth. cbn. now rewrite Z.rem_mod_nonneg by lia. }
  assert (nextYear (IInt y) (IInt m) i = IInt (y + (m + i - 1) / 12)) as EY
    by reflexivity.
  destruct (month_name_in_calendar ((m + i - 1) mod 12) Hb) as [En Hin].
  replace ((m + i - 1) mod 12 + 1 - 1) with ((m + i - 1) mod 12) by lia.
  rewrite EM, EY. unfold label. cbn [INum.sub INum.lift2].
  replace ((m + i - 1) mod 12 + 1 - 1) with ((m + i - 1) mod 12) by lia.
  rewrite <- En.
  split; [reflexivity|]. split; [reflexivity|]. split; [lia|].
  split; [lia|]. split; [reflexivity|exact Hin].
Qed.

(** X13.  A start month before January has no name.  From a start month
    [m <= 0], at a turn [i] that has not reached month 1 yet
    ([m + i <= 0]), the remainder [(m + i - 1) % 12] is negative unless
    it is zero; the month computed is then not positive, no name is
    found for it, and the label reads "undefined" and the year
    [y + floor((m + i - 1) / 12)], a year before [y]. *)
Theorem early_start_month_is_undefined (y m i : Z) :
  INum.safe y -> INum.safe (m + i) -> INum.safe (y * 12 + m + i) ->
  m + i <= 0 -> 0 <= i ->
  Z.rem (m + i - 1) 12 <> 0 ->
  (exists M, nextMonth (IInt m) i = IInt M /\ -11 <= M <= 0)
  /\ nextYear (IInt y) (IInt m) i = IInt (y + (m + i - 1) / 12)
  /\ (m + i - 1) / 12 < 0
  /\ label (nextMonth (IInt m) i) (nextYear (IInt y) (IInt m) i)
     = "undefined " ++ INum.to_string (IInt (y + (m + i - 1) / 12)).
Proof.
  intros _ _ _ Hm Hi Hrem.
  pose proof (Z.rem_bound_pos_neg (m + i - 1) 12 ltac:(lia) ltac:(lia)) as Hb.
  assert (nextMonth (IInt m) i = IInt (Z.rem (m + i - 1) 12 + 1)) as EM
    by reflexivity.
  split; [eexists; split; [exact EM|lia]|].
  split; [reflexivity|].
  split; [apply Z.div_lt_upper_bound; lia|].
  rewrite EM. unfold label, nextYear. cbn [INum.sub INum.add INum.lift2 INum.floor_div].
  unfold month_name.
  destruct (Z.leb_spec 0 (Z.rem (m + i - 1) 12 + 1 - 1)) as [|_]; [lia|].
  reflexivity.
Qed.

End StartMonths.

(** ** The start date set by the effect *)

Section Effect.

Context {num : Type} {js : JSNumber num} {host : Host num} {dates : DateHost}.

Lemma reduce_earliest_valid (l : list (RawRecord num)) (a : Z) :
  exists t,
    reduce_earliest l (IInt a) = IInt t
    /\ t <= a
    /\ (t = a \/ In (IInt t) (map (fun r => Date_new (sales_date r)) l))
    /\ Forall (fun r => forall u, Date_new (sales_date r) = IInt u -> t <= u) l.
Proof.
  revert a. induction l as [|r l IH]; intros a.
  - exists a. cbn. repeat split; [lia|now left|constructor].
  - unfold reduce_earliest. cbn [fold_left].
    fold (reduce_earliest l).
    destruct (Date_new (sales_date r)) as [|u] eqn:Eu; cbn [JSDate.lt].
    + destruct (IH a) as (t & E & Hle & Hin & Hall).
      exists t. split; [exact E|]. split; [exact Hle|]. split.
      * destruct Hin as [->|Hin]; [now left|right; cbn; rewrite Eu; now right].
      * constructor; [|exact Hall]. rewrite Eu. discriminate.
    + destruct (Z.ltb_spec u a) as [Hlt|Hge].
      * destruct (IH u) as (t & E & Hle & Hin & Hall).
        exists t. split; [exact E|]. split; [lia|]. split.
        -- right. cbn. rewrite Eu.
           destruct Hin as [->|Hin]; [now left|now right].
        -- constructor; [|exact Hall]. rewrite Eu. intros ? [= <-]. exact Hle.
      * destruct (IH a) as (t & E & Hle & Hin & Hall).
        exists t. split; [exact E|]. split; [exact Hle|]. split.
        -- destruct Hin as [->|Hin]; [now left|right; cbn; rewrite Eu; now right].
        -- constructor; [|exact Hall]. rewrite Eu. intros ? [= <-]. lia.
Qed.

Lemma reduce_earliest_invalid (l : list (RawRecord num)) :
  reduce_earliest l INaN = INaN.
Proof.
  induction l as [|r l IH]; [reflexivity|].
  unfold reduce_earliest. cbn [fold_left]. fold (reduce_earliest l).
  destruct (Date_new (sales_date r)); exact IH.
Qed.

Lemma useEffect_sets (st : State num) first rest :
  truthy_string (selectedProduct st) = true ->
  productData_of st = first :: rest ->
  useEffect st
  = {| data := data st; predictions := predictions st;
       loading := loading st; productMap := productMap st;
       startDate :=
         formattedDate
           (reduce_earliest (first :: rest) (Date_new (sales_date first)));
       selectedProduct := selectedProduct st |}.
Proof.
  intros Hsel Hdata. unfold useEffect. rewrite Hsel, Hdata.
  destruct (data st) as [|r d] eqn:Ed; [|reflexivity].
  unfold productData_of in Hdata. rewrite Ed in Hdata. discriminate.
Qed.

(** X14.  The date the effect takes is the earliest.  When the first
    row of the selected product has a date the host can read, the
    reduction ends on a valid date, the date of one of the rows of that
    product, and no row of the product has a valid date before it; rows
    whose date the host cannot read are passed over. *)
Theorem earliest_date_is_minimum (first : RawRecord num)
    (rest : list (RawRecord num)) (t0 : Z) :
  Date_new (sales_date first) = IInt t0 ->
  exists t,
    reduce_earliest (first :: rest) (Date_new (sales_date first)) = IInt t
    /\ In (IInt t) (map (fun r => Date_new (sales_date r)) (first :: rest))
    /\ Forall (fun r => forall u, Date_new (sales_date r) = IInt u -> t <= u)
         (first :: rest).
Proof.
  intros E0. rewrite E0.
  destruct (reduce_earliest_valid (first :: rest) t0) as (t & E & _ & Hin & Hall).
  exists t. split; [exact E|]. split; [|exact Hall].
  destruct Hin as [->|Hin]; [|exact Hin]. left. exact E0.
Qed.

(** X15.  An unreadable date in the first row hides all others.  When
    the host cannot read the date of the first row of the selected
    product, every comparison of the reduction is false, the result is
    that invalid date whatever the other rows hold, and the effect sets
    the start date "NaN-NaN", from which the forecast reads neither a
    year nor a month. *)
Theorem invalid_first_date_hides_the_others (st : State num)
    (first : RawRecord num) (rest : list (RawRecord num)) :
  truthy_string (selectedProduct st) = true ->
  productData_of st = first :: rest ->
  Date_new (sales_date first) = INaN ->
  reduce_earliest (first :: rest) (Date_new (sales_date first)) = INaN
  /\ startDate (useEffect st) = "NaN-NaN"
  /\ year_of (useEffect st) = INaN
  /\ month_of (useEffect st) = INaN.
Proof.
  intros Hsel Hdata E0.
  rewrite (useEffect_sets st first rest Hsel Hdata).
  unfold year_of, month_of. cbn [startDate].
  rewrite E0, reduce_earliest_invalid. repeat split.
Qed.

Lemma month_field (k : Z) :
  1 <= k <= 12 ->
  JSString.split "-" (padStart 2 "0" (INum.to_string (IInt k)))
  = [ padStart 2 "0" (INum.to_string (IInt k)) ]
  /\ INum.Number (padStart 2 "0" (INum.to_string (IInt k))) = IInt k
  /\ INum.exact_on (padStart 2 "0" (INum.to_string (IInt k))) = true.
Proof.
  intros Hk.
  assert (k = 1 \/ k = 2 \/ k = 3 \/ k = 4 \/ k = 5 \/ k = 6 \/ k = 7
          \/ k = 8 \/ k = 9 \/ k = 10 \/ k = 11 \/ k = 12) as Hcases by lia.
  repeat (destruct Hcases as [->|Hcases];
          [vm_compute; repeat split|]).
  subst k. vm_compute. repeat split.
Qed.

Lemma formattedDate_parts (t : Z) :
  0 <= YearFromTime t -> 0 <= MonthFromTime t <= 11 ->
  JSString.split "-" (formattedDate (IInt t))
  = [ INum.to_string (IInt (YearFromTime t));
      padStart 2 "0" (INum.to_string (IInt (MonthFromTime t + 1))) ].
Proof.
  intros Hy Hm. unfold formattedDate.
  cbn [JSDate.getFullYear JSDate.getMonth INum.add INum.lift2].
  assert (1 <= MonthFromTime t + 1 <= 12) as Hk by lia.
  destruct (month_field (MonthFromTime t + 1) Hk) as (Hsplit & _).
  change ("-" ++ padStart 2 "0" (INum.to_string (IInt (MonthFromTime t + 1))))
    with (String "-"
            (padStart 2 "0" (INum.to_string (IInt (MonthFromTime t + 1))))).
  rewrite split_at, Hsplit; [reflexivity|].
  destruct (to_string_spelling (YearFromTime t)) as (d & _ & _ & ->).
  destruct (Z.ltb_spec (YearFromTime t) 0) as [|_]; [lia|].
  apply (occurs_uint "-" d). reflexivity.
Qed.

Lemma formattedDate_parse (t : Z) :
  0 <= YearFromTime t -> 0 <= MonthFromTime t <= 11 ->
  parse_startDate (formattedDate (IInt t))
  = (IInt (YearFromTime t), IInt (MonthFromTime t + 1))
  /\ start_in_model (formattedDate (IInt t)) = true
  /\ truthy_string (formattedDate (IInt t)) = true.
Proof.
  intros Hy Hm. unfold parse_startDate, start_in_model.
  rewrite (formattedDate_parts t Hy Hm).
  assert (1 <= MonthFromTime t + 1 <= 12) as Hk by lia.
  destruct (month_field (MonthFromTime t + 1) Hk) as (_ & Hnum & Hex).
  destruct (Number_spelling (YearFromTime t)) as [HY HYex].
  cbn [map lookup list_lookup default from_option take forallb id].
  rewrite HY, Hnum, HYex, Hex. repeat split.
  unfold formattedDate. cbn [JSDate.getFullYear].
  destruct (to_string_spelling (YearFromTime t)) as (d & Hd & _ & ->).
  destruct (uint_head d Hd) as (a & s & -> & _).
  destruct (YearFromTime t <? 0); reflexivity.
Qed.

(** X16.  The start date the effect writes is one the forecast reads
    back.  When the earliest date of the selected product is valid, in
    a year of our era, the effect leaves a start date from which
    [predictSales] reads that year and the month of that date, counted
    from 1; the other hooks are untouched, and the button is disabled
    only while a run is loading. *)
Theorem effect_start_date_is_read_back (st : State num)
    (first : RawRecord num) (rest : list (RawRecord num)) (t : Z) :
  truthy_string (selectedProduct st) = true ->
  productData_of st = first :: rest ->
  reduce_earliest (first :: rest) (Date_new (sales_date first)) = IInt t ->
  0 <= YearFromTime t -> INum.safe (YearFromTime t) ->
  0 <= MonthFromTime t <= 11 ->
  year_of (useEffect st) = IInt (YearFromTime t)
  /\ month_of (useEffect st) = IInt (MonthFromTime t + 1)
  /\ start_in_model (startDate (useEffect st)) = true
  /\ disabled (useEffect st) = loading st
  /\ (data (useEffect st) = data st
      /\ predictions (useEffect st) = predictions st
      /\ productMap (useEffect st) = productMap st
      /\ selectedProduct (useEffect st) = selectedProduct st).
Proof.
  intros Hsel Hdata Ht Hy _ Hm.
  rewrite (useEffect_sets st first rest Hsel Hdata), Ht.
  destruct (formattedDate_parse t Hy Hm) as (Hparse & Hmodel & Htruthy).
  unfold year_of, month_of, disabled.
  cbn [startDate loading selectedProduct data predictions productMap].
  rewrite Hparse, Hmodel, Htruthy, Hsel. cbn [fst snd negb].
  rewrite !orb_false_r. repeat split.
Qed.

(** X17.  From the selection to the forecast.  When the effect has set
    the start date from a valid earliest date and the model answers the
    six rows, the forecast is six points for the selected product,
    labelled with the month of that earliest date and the five months
    after it, by name, each with its year. *)
Theorem forecast_starts_at_earliest_month (st : State num)
    (first : RawRecord num) (rest : list (RawRecord num)) (t : Z)
    (model : Model) (mx mn : num) (answers : Z -> num) :
  truthy_string (selectedProduct st) = true ->
  productData_of st = first :: rest ->
  reduce_earliest (first :: rest) (Date_new (sales_date first)) = IInt t ->
  0 <= YearFromTime t -> INum.safe (YearFromTime t + 1) ->
  0 <= MonthFromTime t <= 11 ->
  Forall
    (fun i =>
       tf_predict model
         (predict_row (nextMonth (IInt (MonthFromTime t + 1)) i)
            (JSObject.get (productMap st) (selectedProduct st)))
       = Answer (answers i))
    [0; 1; 2; 3; 4; 5] ->
  predictSales (useEffect st) model mx mn
  = Returned
      (map (fun i =>
              {| p_sales_date :=
                   nth (Z.to_nat ((MonthFromTime t + i) mod 12)) monthNames ""
                   ++ " "
                   ++ INum.to_string
                        (IInt (YearFromTime t + (MonthFromTime t + i) / 12));
                 p_product_description := selectedProduct st;
                 p_quantity_sold := denormalize mx mn (answers i) |})
         [0; 1; 2; 3; 4; 5]).
Proof.
  intros Hsel Hdata Ht Hy _ Hm Hans.
  pose proof (useEffect_sets st first rest Hsel Hdata) as Est.
  rewrite Ht in Est.
  destruct (formattedDate_parse t Hy Hm) as (Hparse & _).
  assert (year_of (useEffect st) = IInt (YearFromTime t)) as EY.
  { unfold year_of. rewrite Est. cbn [startDate]. now rewrite Hparse. }
  assert (month_of (useEffect st) = IInt (MonthFromTime t + 1)) as EM.
  { unfold month_of. rewrite Est. cbn [startDate]. now rewrite Hparse. }
  assert (selectedProduct (useEffect st) = selectedProduct st) as Esel
    by now rewrite Est.
  assert (productMap (useEffect st) = productMap st) as Emap
    by now rewrite Est.
  rewrite (predictSales_answers (useEffect st) model mx mn answers).
  - rewrite EY, EM. unfold forecast_point. rewrite Esel.
    assert (forall i, 0 <= i ->
              label (nextMonth (IInt (MonthFromTime t + 1)) i)
                (nextYear (IInt (YearFromTime t)) (IInt (MonthFromTime t + 1)) i)
              = nth (Z.to_nat ((MonthFromTime t + i) mod 12)) monthNames ""
                ++ " "
                ++ INum.to_string
                     (IInt (YearFromTime t + (MonthFromTime t + i) / 12)))
      as Hlabel.
    { intros i Hi. rewrite label_of_turn by lia.
      replace (MonthFromTime t + 1 + i - 1) with (MonthFromTime t + i) by lia.
      reflexivity. }
    cbn [map]. rewrite !Hlabel by lia. reflexivity.
  - now rewrite Esel.
  - unfold forecast_row. rewrite EM, Esel, Emap. exact Hans.
Qed.

End Effect.

(** ** The button *)

Section Button.

Context {num : Type} {js : JSNumber num} {host : Host num}.

(** X20.  A click on the enabled button.  The button is enabled only
    with a product selected and a start date; a run started by it that
    completes leaves six points, each for the selected product, the
    chart is rendered, and the catalogue left is that of the data the
    run was started on. *)
Theorem click_charts_six_points (st : State num) :
  disabled st = false ->
  snd (onClick st) = None ->
  truthy_string (selectedProduct st) = true
  /\ truthy_string (startDate st) = true
  /\ length (predictions (fst (onClick st))) = 6%nat
  /\ Forall (fun p => p_product_description p = selectedProduct st)
       (predictions (fst (onClick st)))
  /\ chart_rendered (fst (onClick st)) = true
  /\ productMap (fst (onClick st)) = newProductMap (data st).
Proof.
  unfold disabled. intros Hen Hdone.
  apply orb_false_elim in Hen as [Hen Hsel].
  apply orb_false_elim in Hen as [_ Hstart].
  apply negb_false_iff in Hsel, Hstart.
  split; [exact Hsel|]. split; [exact Hstart|].
  revert Hdone. unfold onClick, handleTrainModel, chart_rendered, preprocessData.
  destruct (trainModel _) as [model|e1]; [|discriminate].
  destruct (predictSales st model _ _) as [points|e2] eqn:Ep; [|discriminate].
  cbn. intros _. rewrite predictSales_unfold in Ep.
  destruct (for_loop_selected _ _ _ _ _ _ _ _ _ Hsel Ep) as (new & -> & Hall & Hlab).
  apply (f_equal (@length _)) in Hlab. rewrite !length_map in Hlab.
  cbn [app]. rewrite Hlab. repeat split. exact Hall.
Qed.

End Button.

(** ** The component at work on the example host *)

(** The scenario of the design: three months of one product, a forecast
    from April 2023. *)
Lemma end_to_end_labels :
  let st := Example.render (newProductMap Example.widgets) "2023-04" "Widget" in
  snd (Example.run st Example.widgets) = None
  /\ map p_sales_date (predictions (fst (Example.run st Example.widgets)))
     = [ "April 2023"; "May 2023"; "June 2023"; "July 2023"; "August 2023";
         "September 2023" ].
Proof. vm_compute. split; reflexivity. Qed.

(** C1: a record of January 2023 is trained on phase 1, the forecast for
    January asks for phase 0. *)
Lemma phase_shift_january_2023 :
  train_phase (INum.add (INum.mul (IInt 2023) (IInt 12)) (IInt 1)) = IInt 1
  /\ predict_phase (IInt 1) = IInt 0
  /\ (1 =? 0) = false
  /\ train_phase (INum.add (INum.mul (IInt 2023) (IInt 12)) (IInt 1))
     = predict_phase (nextMonth (IInt 1) 1).
Proof.
  exact (phase_shift 2023 1 ltac:(lia) ltac:(unfold INum.safe; lia) ltac:(lia)).
Defined.

(** The rows of that January on the example host: the sine of 30
    degrees in training, the sine and cosine of 0 degrees in the
    forecast. *)
Lemma january_rows_differ :
  map (fun row => fst (fst row))
    (map train_row
       (normalizedData
          (fst (preprocessData [ Example.entry "1/1/2023" "Widget" 10 ]))))
  = [ 0x1.fffffffffffffp-2 ]%float
  /\ forecast_row
       (Example.render (newProductMap Example.widgets) "2023-01" "Widget")
       (IInt 1) 0
     = (0, 1, JSObject.VCode 0)%float.
Proof. vm_compute. split; reflexivity. Qed.

(** C2: a run whose selection, "Gadget", is in neither catalogue ends
    without failure and sets six forecast points; so does a run whose
    state holds "Gadget" from an earlier file while the data of the run
    do not, and its points are numbers. *)
Lemma unknown_product_gets_forecasts :
  let st := Example.render (newProductMap Example.widgets) "2023-04" "Gadget" in
  let stale := Example.render (<["Gadget" := O]> ∅) "2023-04" "Gadget" in
  newProductMap Example.widgets !! "Gadget" = None
  /\ snd (Parsed.handleTrainModel st Example.widget_rows) = None
  /\ predictions (fst (Parsed.handleTrainModel st Example.widget_rows))
     = [ Example.point "April 2023" "Gadget" nan;
         Example.point "May 2023" "Gadget" nan;
         Example.point "June 2023" "Gadget" nan;
         Example.point "July 2023" "Gadget" nan;
         Example.point "August 2023" "Gadget" nan;
         Example.point "September 2023" "Gadget" nan ]
  /\ snd (Parsed.handleTrainModel stale Example.widget_rows) = None
  /\ predictions (fst (Parsed.handleTrainModel stale Example.widget_rows))
     = [ Example.point "April 2023" "Gadget" 15;
         Example.point "May 2023" "Gadget" 15;
         Example.point "June 2023" "Gadget" 15;
         Example.point "July 2023" "Gadget" 15;
         Example.point "August 2023" "Gadget" 15;
         Example.point "September 2023" "Gadget" 15 ].
Proof. vm_compute. repeat split; reflexivity. Qed.

(** C2, at work: the run for "Gadget" on the widgets. *)
Lemma unknown_product_witness :
  let st := Example.render (newProductMap Example.widgets) "2023-04" "Gadget" in
  Parsed.handleTrainModel st Example.widget_rows
  = ({| data := [];
        predictions :=
          map (fun i =>
                 forecast_point st 20%float 10%float (IInt 2023) (IInt 4) i nan)
            [0; 1; 2; 3; 4; 5];
        loading := false;
        productMap := newProductMap Example.widgets;
        startDate := "2023-04";
        selectedProduct := "Gadget" |}, None).
Proof.
  cbv zeta.
  destruct (unknown_product_is_not_reported (host := Example.host)
              (Example.render (newProductMap Example.widgets) "2023-04" "Gadget")
              Example.widget_rows eq_refl eq_refl eq_refl)
    as (_ & _ & Hrun).
  refine (eq_trans
            (Hrun (fst (preprocessData Example.widgets))
               (newProductMap Example.widgets) 0.5%float (fun _ => nan)
               _ (or_introl _) _ _) _).
  - vm_compute. reflexivity.
  - vm_compute. reflexivity.
  - vm_compute. reflexivity.
  - repeat constructor.
  - vm_compute. reflexivity.
Defined.

(** C3: with the quantities 1 and 1.5 the component divides by 0.5, the
    design's formula by max(0.5, 1) = 1. *)
Lemma range_below_one_is_kept :
  let l := [ Example.entry "1/1/2023" "Widget" 1;
             Example.entry "2/1/2023" "Widget" 1.5 ] in
  map n_quantity_sold (normalizedData (fst (preprocessData l))) = [ 0; 1 ]%float
  /\ map (Spec.normalize 1.5%float 1%float) (quantities l) = [ 0; 0.5 ]%float.
Proof. vm_compute. split; reflexivity. Qed.

(** C3, at work: the widgets, sold 10, 20 and 15 times. *)
Lemma scaling_witness :
  let pre := fst (preprocessData Example.widgets) in
  maxQuantity pre = 20%float
  /\ minQuantity pre = 10%float
  /\ map n_quantity_sold (normalizedData pre) = [ 0; 1; 0.5 ]%float
  /\ (forall n : float,
        denormalize (maxQuantity pre) (minQuantity pre) n = (n * 10 + 10)%float).
Proof.
  cbv zeta.
  destruct (scaling_as_coded Example.widgets) as (Hmax & Hmin & Hnorm & Hden).
  split; [exact Hmax|]. split; [exact Hmin|]. split; [exact Hnorm|].
  intros n. exact (Hden n eq_refl).
Defined.



(** C5: a negative quantity, an infinite one and a date that is none are
    all emitted; none of the three records meets the invariant of a
    clean record. *)
Lemma validator_keeps_unclean_records :
  let l := [ Example.entry "1/1/2023" "Widget" (-5);
             Example.entry "2/1/2023" "Widget" infinity;
             Example.entry "soon" "Widget" 3 ] in
  processedData l
  = [ {| d_month := IInt 24277; d_product_description := JSObject.VCode 0;
         d_quantity_sold := Num (-5)%float |};
      {| d_month := IInt 24278; d_product_description := JSObject.VCode 0;
         d_quantity_sold := Num infinity |};
      {| d_month := INaN; d_product_description := JSObject.VCode 0;
         d_quantity_sold := Num 3%float |} ]
  /\ map Spec.CleanRecord (processedData l) = [ false; false; false ].
Proof. vm_compute. split; reflexivity. Qed.

(** C5, at work: four rows of which one is emitted, and a batch that
    a date typed as a number makes fail. *)
Lemma validator_witness :
  let rows := [ Example.row "1/1/2023" "Widget" (-5);
                Example.row "" "Widget" 3;
                Example.row "2/1/2023" "Widget" nan;
                {| Parsed.r_sales_date := Parsed.NotText false;
                   Parsed.r_product_description := "Widget";
                   Parsed.r_quantity_sold := Num 4%float |} ] in
  let batch := [ Example.row "1/1/2023" "Widget" 5;
                 Example.numbered_row "Widget" 7 ] in
  (Parsed.map_rows (∅, O) rows
   = Returned (map_entries (∅, O) (map Parsed.entry rows))
   /\ map (fun d => (d_month d, d_quantity_sold d))
        (processedData (map Parsed.entry rows))
      = map (fun e => (entry_month_index e, quantity_sold e))
          (List.filter valid_entry (map Parsed.entry rows))
   /\ Forall (fun d => isNaN (d_quantity_sold d) = false)
        (processedData (map Parsed.entry rows))
   /\ (length (processedData (map Parsed.entry rows)) <= length rows)%nat)
  /\ (exists message,
         Parsed.map_rows (∅, O) batch = Thrown (TypeError message)).
Proof.
  cbv zeta. split.
  - exact (validator_emits
             [ Example.row "1/1/2023" "Widget" (-5);
               Example.row "" "Widget" 3;
               Example.row "2/1/2023" "Widget" nan;
               {| Parsed.r_sales_date := Parsed.NotText false;
                  Parsed.r_product_description := "Widget";
                  Parsed.r_quantity_sold := Num 4%float |} ] eq_refl).
  - exact (validator_emits
             [ Example.row "1/1/2023" "Widget" 5;
               Example.numbered_row "Widget" 7 ] eq_refl).
Defined.

(** C6: without any entry the pre-processing returns its extrema, and
    the run ends in the exception of the host. *)
Lemma empty_training_set_yields_infinite_extrema :
  let st := Example.render ∅ "2023-04" "Widget" in
  fst (preprocessData (num := float) [])
  = {| normalizedData := []; maxQuantity := neg_infinity;
       minQuantity := infinity |}
  /\ snd (Example.run st [])
     = Some (HostException "tensor2d() requires shape to be provided").
Proof. vm_compute. split; reflexivity. Qed.

(** C6, at work: an entry whose quantity is NaN and one without date. *)
Lemma empty_training_set_witness :
  let l := [ Example.entry "1/1/2023" "Widget" nan;
             {| sales_date := None; product_description := "Widget";
                quantity_sold := Num 4%float |} ] in
  fst (preprocessData l)
  = {| normalizedData := []; maxQuantity := neg_infinity;
       minQuantity := infinity |}
  /\ trainModel (normalizedData (fst (preprocessData l)))
     = call (Example.fit [] [])
  /\ (forall st e, snd (Example.run st l) = Some e ->
                   exists message, e = HostException message).
Proof.
  exact (empty_training_set_is_not_reported (host := Example.host)
           [ Example.entry "1/1/2023" "Widget" nan;
             {| sales_date := None; product_description := "Widget";
                quantity_sold := Num 4%float |} ] eq_refl).
Defined.

(** C7, at work: the six months from November 2023. *)
Lemma horizon_from_november_2023 :
  let st := Example.render (newProductMap Example.widgets) "2023-11" "Widget" in
  Example.forecast st 15 20 10
  = Returned
      [ Example.point "November 2023" "Widget" 160;
        Example.point "December 2023" "Widget" 160;
        Example.point "January 2024" "Widget" 160;
        Example.point "February 2024" "Widget" 160;
        Example.point "March 2024" "Widget" 160;
        Example.point "April 2024" "Widget" 160 ]
  /\ Forall
       (fun i =>
          (2023 + (11 + i - 1) / 12) * 12 + ((11 + i - 1) mod 12 + 1)
          = 2023 * 12 + 11 + i
          /\ 1 <= (11 + i - 1) mod 12 + 1 <= 12)
       [0; 1; 2; 3; 4; 5].
Proof.
  cbv zeta.
  destruct (horizon_months (host := Example.host)
              (Example.render (newProductMap Example.widgets) "2023-11" "Widget")
              15%float 20%float 10%float 2023 11 (fun _ => 15%float)
              ltac:(unfold INum.safe; lia) ltac:(unfold INum.safe; lia)
              ltac:(lia) eq_refl eq_refl ltac:(repeat constructor))
    as [Hrun Hcount].
  split; [|exact Hcount].
  refine (eq_trans Hrun _). vm_compute. reflexivity.
Defined.

(** C8, on the code: a product called "constructor" is given no code.
    The test [in] finds the member every object inherits under that name,
    so nothing is stored and the record carries that member; "Widget",
    met second, takes code 0. *)
Theorem inherited_name_gets_no_code :
  let l := [ Example.entry "1/1/2023" "constructor" 5;
             Example.entry "2/1/2023" "Widget" 3;
             Example.entry "3/1/2023" "constructor" 4 ] in
  map d_product_description (processedData l)
  = [ JSObject.VInherited "constructor"; JSObject.VCode 0;
      JSObject.VInherited "constructor" ]
  /\ newProductMap l !! "constructor" = None
  /\ newProductMap l !! "Widget" = Some 0%nat.
Proof. vm_compute. repeat split; reflexivity. Qed.



(** X2, at work: what the fit is given for the widgets. *)
Lemma training_set_witness :
  trainModel (normalizedData (fst (preprocessData Example.widgets)))
  = call
      (Example.fit
         (map (fun e =>
                 (Example.sin (angle (train_phase (entry_month_index e))),
                  Example.cos (angle (train_phase (entry_month_index e))),
                  JSObject.get (newProductMap Example.widgets)
                    (product_description e)))
            (List.filter valid_entry Example.widgets))
         (map (fun e =>
                 num_div
                   (num_sub (ToNumber (quantity_sold e))
                      (Math_min (quantities Example.widgets)))
                   (range_or_1 (Math_max (quantities Example.widgets))
                      (Math_min (quantities Example.widgets))))
            (List.filter valid_entry Example.widgets))).
Proof.
  exact (training_set_of_entries (host := Example.host) Example.widgets eq_refl).
Defined.

(** X4, at work: three finite quantities. *)
Lemma extrema_bound_witness :
  let l := [ Example.exact_entry "1/1/2023" "Widget" (10 # 1);
             Example.exact_entry "2/1/2023" "Widget" (20 # 1);
             Example.exact_entry "3/1/2023" "Widget" (15 # 1) ] in
  exists mx mn : Q,
    maxQuantity (fst (preprocessData l)) = EFin mx
    /\ minQuantity (fst (preprocessData l)) = EFin mn
    /\ In (EFin mx) (quantities l)
    /\ In (EFin mn) (quantities l)
    /\ Forall (fun b => forall q, b = EFin q -> (mn <= q <= mx)%Q) (quantities l).
Proof.
  cbv zeta. apply extrema_bound_quantities.
  - vm_compute. discriminate.
  - repeat constructor; eexists; reflexivity.
Defined.

(** X6, at work: two sales of 3.5. *)
Lemma degenerate_range_witness :
  let l := [ Example.entry "1/1/2023" "Widget" 3.5;
             Example.entry "2/1/2023" "Widget" 3.5 ] in
  map n_quantity_sold (normalizedData (fst (preprocessData l))) = [ 0; 0 ]%float
  /\ num_eq (denormalize (maxQuantity (fst (preprocessData l)))
               (minQuantity (fst (preprocessData l))) 0%float) 3.5%float
     = true.
Proof.
  exact (degenerate_range_in_doubles
           [ Example.entry "1/1/2023" "Widget" 3.5;
             Example.entry "2/1/2023" "Widget" 3.5 ] 3.5%float 1 eq_refl eq_refl).
Defined.

(** X7, at work: a sale on the 15th of March 2023, at half past ten. *)
Lemma dated_entry_witness :
  exists enc',
    process_entry (∅, O) (Example.entry "03/15/2023 10:30" "Widget" 4)
    = (enc', Some {| d_month := IInt 24279;
                     d_product_description :=
                       JSObject.get (fst enc') "Widget";
                     d_quantity_sold := Num 4%float |}).
Proof.
  exact (month_of_a_dated_entry (∅, O)
           (Example.entry "03/15/2023 10:30" "Widget" 4)
           "03" "15" "2023" " 10:30" 3 2023
           ltac:(unfold INum.safe; lia) ltac:(unfold INum.safe; lia)
           ltac:(unfold INum.safe; lia)
           eq_refl eq_refl eq_refl eq_refl eq_refl eq_refl
           (or_intror (ex_intro _ "10:30" eq_refl))
           eq_refl eq_refl eq_refl eq_refl).
Defined.

(** X8, at work: a sale of gadgets appended to the widgets. *)
Lemma appended_rows_witness :
  let more := [ Example.entry "4/1/2023" "Gadget" 5 ] in
  newProductMap (Example.widgets ++ more)%list !! "Widget" = Some O
  /\ take (length (processedData Example.widgets))
       (processedData (Example.widgets ++ more)%list)
     = processedData Example.widgets.
Proof.
  cbv zeta. apply appended_rows_keep_codes. vm_compute. reflexivity.
Defined.

(** X9, at work: a batch with a date typed as a number. *)
Lemma failed_run_witness :
  let st := Example.render ∅ "2023-04" "Widget" in
  let rows := [ Example.row "1/1/2023" "Widget" 5;
                Example.numbered_row "Widget" 7 ] in
  loading (fst (Parsed.handleTrainModel st rows)) = true
  /\ disabled (fst (Parsed.handleTrainModel st rows)) = true
  /\ predictions (fst (Parsed.handleTrainModel st rows)) = predictions st
  /\ ((exists message,
          TypeError "entry.sales_date.split is not a function"
          = TypeError message)
      /\ existsb row_throws rows = true
      /\ productMap (fst (Parsed.handleTrainModel st rows)) = productMap st
      \/ (exists message,
             TypeError "entry.sales_date.split is not a function"
             = HostException message)
         /\ existsb row_throws rows = false
         /\ productMap (fst (Parsed.handleTrainModel st rows))
            = newProductMap (map Parsed.entry rows)).
Proof.
  exact (failed_run_stays_loading (host := Example.host)
           (Example.render ∅ "2023-04" "Widget")
           [ Example.row "1/1/2023" "Widget" 5;
             Example.numbered_row "Widget" 7 ]
           (TypeError "entry.sales_date.split is not a function") eq_refl).
Defined.

(** X10, at work: the widgets, forecast from April 2023. *)
Lemma completed_run_witness :
  let st := Example.render (newProductMap Example.widgets) "2023-04" "Widget" in
  let st' := fst (handleTrainModel st Example.widgets) in
  loading st' = false
  /\ productMap st' = newProductMap Example.widgets
  /\ (data st' = data st /\ startDate st' = startDate st
      /\ selectedProduct st' = selectedProduct st)
  /\ length (predictions st') = 6%nat
  /\ Forall (fun p => p_product_description p = "Widget") (predictions st')
  /\ map p_sales_date (predictions st')
     = map (fun p => label (snd p) (fst p)) (horizon (IInt 2023) (IInt 4))
  /\ chart_rendered st' = true.
Proof.
  exact (completed_run_state (host := Example.host)
           (Example.render (newProductMap Example.widgets) "2023-04" "Widget")
           Example.widgets eq_refl eq_refl).
Defined.

(** X11, at work: the same run, point by point. *)
Lemma answering_host_witness :
  let st := Example.render (newProductMap Example.widgets) "2023-04" "Widget" in
  handleTrainModel st Example.widgets
  = ({| data := [];
        predictions :=
          [ Example.point "April 2023" "Widget" 15;
            Example.point "May 2023" "Widget" 15;
            Example.point "June 2023" "Widget" 15;
            Example.point "July 2023" "Widget" 15;
            Example.point "August 2023" "Widget" 15;
            Example.point "September 2023" "Widget" 15 ];
        loading := false;
        productMap := newProductMap Example.widgets;
        startDate := "2023-04";
        selectedProduct := "Widget" |}, None).
Proof.
  cbv zeta.
  refine (eq_trans
            (run_on_answering_host (host := Example.host)
               (Example.render (newProductMap Example.widgets) "2023-04" "Widget")
               Example.widgets 0.5%float (fun _ => 0.5%float)
               eq_refl eq_refl eq_refl _ _) _).
  - vm_compute. reflexivity.
  - repeat constructor.
  - vm_compute. reflexivity.
Defined.

(** X12, at work: a start in "month 14" of 2023 is February 2024. *)
Lemma late_start_month_witness :
  nextMonth (IInt 14) 0 = IInt 2
  /\ nextYear (IInt 2023) (IInt 14) 0 = IInt 2024
  /\ 1 <= 2 <= 12
  /\ 2024 * 12 + 2 = 2023 * 12 + 14 + 0
  /\ label (nextMonth (IInt 14) 0) (nextYear (IInt 2023) (IInt 14) 0)
     = "February 2024"
  /\ In "February" monthNames.
Proof.
  exact (late_start_month_rolls_over 2023 14 0
           ltac:(unfold INum.safe; lia) ltac:(unfold INum.safe; lia)
           ltac:(unfold INum.safe; lia) ltac:(lia) ltac:(lia)).
Defined.

(** X13, at work: a start in "month 0" of 2023. *)
Lemma early_start_month_witness :
  (exists M, nextMonth (IInt 0) 0 = IInt M /\ -11 <= M <= 0)
  /\ nextYear (IInt 2023) (IInt 0) 0 = IInt 2022
  /\ -1 < 0
  /\ label (nextMonth (IInt 0) 0) (nextYear (IInt 2023) (IInt 0) 0)
     = "undefined 2022".
Proof.
  exact (early_start_month_is_undefined 2023 0 0
           ltac:(unfold INum.safe; lia) ltac:(unfold INum.safe; lia)
           ltac:(unfold INum.safe; lia) ltac:(lia) ltac:(lia)
           ltac:(vm_compute; discriminate)).
Defined.

(** X14, at work: February, January, March. *)
Lemma earliest_date_witness :
  let first := Example.entry "2/1/2023" "Widget" 20 in
  let rest := [ Example.entry "1/1/2023" "Widget" 10;
                Example.entry "soon" "Widget" 12;
                Example.entry "3/1/2023" "Widget" 15 ] in
  exists t,
    reduce_earliest (first :: rest) (Date_new (sales_date first)) = IInt t
    /\ In (IInt t) (map (fun r => Date_new (sales_date r)) (first :: rest))
    /\ Forall (fun r => forall u, Date_new (sales_date r) = IInt u -> t <= u)
         (first :: rest).
Proof.
  exact (earliest_date_is_minimum (dates := Example.dates)
           (Example.entry "2/1/2023" "Widget" 20)
           [ Example.entry "1/1/2023" "Widget" 10;
             Example.entry "soon" "Widget" 12;
             Example.entry "3/1/2023" "Widget" 15 ]
           1675209600000 eq_refl).
Defined.

(** X15, at work: the first row of the product is dated "soon". *)
Lemma invalid_first_date_witness :
  let first := Example.entry "soon" "Widget" 12 in
  let rest := [ Example.entry "1/1/2023" "Widget" 10 ] in
  let st := {| data := first :: rest; predictions := []; loading := false;
               productMap := newProductMap (first :: rest);
               startDate := "2023-04"; selectedProduct := "Widget" |} in
  reduce_earliest (first :: rest) (Date_new (sales_date first)) = INaN
  /\ startDate (useEffect st) = "NaN-NaN"
  /\ year_of (useEffect st) = INaN
  /\ month_of (useEffect st) = INaN.
Proof.
  exact (invalid_first_date_hides_the_others (dates := Example.dates)
           {| data := [ Example.entry "soon" "Widget" 12;
                        Example.entry "1/1/2023" "Widget" 10 ];
              predictions := []; loading := false;
              productMap :=
                newProductMap [ Example.entry "soon" "Widget" 12;
                                Example.entry "1/1/2023" "Widget" 10 ];
              startDate := "2023-04"; selectedProduct := "Widget" |}
           (Example.entry "soon" "Widget" 12)
           [ Example.entry "1/1/2023" "Widget" 10 ] eq_refl eq_refl eq_refl).
Defined.

(** X16, at work: the widgets are uploaded and "Widget" is chosen. *)
Lemma effect_start_date_witness :
  let st := Example.chosen "Widget" in
  year_of (useEffect st) = IInt 2023
  /\ month_of (useEffect st) = IInt 1
  /\ start_in_model (startDate (useEffect st)) = true
  /\ disabled (useEffect st) = false
  /\ (data (useEffect st) = data st
      /\ predictions (useEffect st) = predictions st
      /\ productMap (useEffect st) = productMap st
      /\ selectedProduct (useEffect st) = selectedProduct st).
Proof.
  exact (effect_start_date_is_read_back (dates := Example.dates)
           (Example.chosen "Widget")
           (Example.entry "1/1/2023" "Widget" 10)
           [ Example.entry "2/1/2023" "Widget" 20;
             Example.entry "3/1/2023" "Widget" 15 ]
           1672531200000 eq_refl eq_refl eq_refl
           ltac:(vm_compute; discriminate) ltac:(vm_compute; reflexivity)
           ltac:(vm_compute; split; discriminate)).
Defined.

(** X17, at work: the forecast that follows. *)
Lemma forecast_from_selection_witness :
  predictSales (useEffect (Example.chosen "Widget")) 15%float 20%float 10%float
  = Returned
      [ Example.point "January 2023" "Widget" 160;
        Example.point "February 2023" "Widget" 160;
        Example.point "March 2023" "Widget" 160;
        Example.point "April 2023" "Widget" 160;
        Example.point "May 2023" "Widget" 160;
        Example.point "June 2023" "Widget" 160 ].
Proof.
  refine (eq_trans
            (forecast_starts_at_earliest_month (host := Example.host)
               (dates := Example.dates) (Example.chosen "Widget")
               (Example.entry "1/1/2023" "Widget" 10)
               [ Example.entry "2/1/2023" "Widget" 20;
                 Example.entry "3/1/2023" "Widget" 15 ]
               1672531200000 15%float 20%float 10%float (fun _ => 15%float)
               eq_refl eq_refl eq_refl
               ltac:(vm_compute; discriminate) ltac:(vm_compute; reflexivity)
               ltac:(vm_compute; split; discriminate) _) _).
  - repeat constructor.
  - vm_compute. reflexivity.
Defined.

(** X20, at work: the button, after the widgets were uploaded, "Widget"
    was chosen and the effect has set the start date. *)
Lemma click_witness :
  let st := useEffect (Example.chosen "Widget") in
  truthy_string (selectedProduct st) = true
  /\ truthy_string (startDate st) = true
  /\ length (predictions (fst (onClick st))) = 6%nat
  /\ Forall (fun p => p_product_description p = "Widget")
       (predictions (fst (onClick st)))
  /\ chart_rendered (fst (onClick st)) = true
  /\ productMap (fst (onClick st)) = newProductMap Example.widgets.
Proof.
  exact (click_charts_six_points (host := Example.host)
           (useEffect (dates := Example.dates) (Example.chosen "Widget"))
           eq_refl eq_refl).
Defined.
